(** * dynamo.py: the thumbnail pipeline of the PDF ingestion handler

    A shallow embedding of [src/dynamo.py] and the properties of its
    specification.  The handler is effectful Python: it talks to a blob
    store (S3), a metadata table (DynamoDB), the local file system under
    [/tmp], a document renderer and an image library.  The embedding keeps
    the code's control flow (the classifier's test, the [try] block, its early
    [return], the [except] handler with its nested [try]) in a small state
    and exception monad, and records every external call in a history.

    Conventions.
    - A Python [str] is a Rocq [string]: the sequence of its UTF-8 bytes.
      The library functions on strings ([lower], [startswith], [endswith],
      [unquote_plus], [os.path.basename], [os.path.splitext], [split],
      [int]) are written after their CPython definitions; case mapping is
      the ASCII one and percent-decoded bytes are kept as they are (keys
      in notifications are percent-encoded UTF-8).
    - JSON values (the event, the handler's result) are [pyval].
    - What the outside world answers (store faults, the renderer, the image
      library, the identifier generator, the clock, deletion faults) is an
      explicit record [Env], universally quantified in the theorems. *)

From Stdlib Require Import ZArith Ascii String List Lia Bool.
From stdpp Require Import base option list strings gmap fin_maps.

Local Open Scope Z_scope.
Set Warnings "-register-all".

(** ** Python strings *)

Module Str.

Definition len (s : string) : nat := String.length s.

Fixpoint drop (n : nat) (s : string) : string :=
  match n, s with
  | O, _ => s
  | S n', String _ r => drop n' r
  | S _, EmptyString => EmptyString
  end.

Fixpoint take (n : nat) (s : string) : string :=
  match n, s with
  | O, _ => EmptyString
  | S n', String c r => String c (take n' r)
  | S _, EmptyString => EmptyString
  end.

(** [s.startswith(p)] *)
Fixpoint startswith (s p : string) {struct p} : bool :=
  match p, s with
  | EmptyString, _ => true
  | String c p', String d s' => Ascii.eqb c d && startswith s' p'
  | String _ _, EmptyString => false
  end.

(** [s.endswith(p)]: the last [len p] characters of [s] are [p]. *)
Definition endswith (s p : string) : bool :=
  (len p <=? len s)%nat && String.eqb (drop (len s - len p) s) p.

Definition is_upper (c : ascii) : bool :=
  (65 <=? nat_of_ascii c)%nat && (nat_of_ascii c <=? 90)%nat.

Definition lower_char (c : ascii) : ascii :=
  if is_upper c then ascii_of_nat (nat_of_ascii c + 32) else c.

(** [s.lower()] *)
Fixpoint lower (s : string) : string :=
  match s with
  | EmptyString => EmptyString
  | String c r => String (lower_char c) (lower r)
  end.

(** [s.replace(a, b)] for single characters. *)
Fixpoint replace_char (a b : ascii) (s : string) : string :=
  match s with
  | EmptyString => EmptyString
  | String c r => String (if Ascii.eqb c a then b else c) (replace_char a b r)
  end.

(** [s.split(sep)] for a one-character separator: never the empty list. *)
Fixpoint split (sep : ascii) (s : string) : list string :=
  match s with
  | EmptyString => [EmptyString]
  | String c r =>
      if Ascii.eqb c sep then EmptyString :: split sep r
      else match split sep r with
           | h :: t => String c h :: t
           | [] => [String c EmptyString]
           end
  end.

(** [''.join(l)] *)
Definition join (l : list string) : string :=
  fold_right String.append EmptyString l.

(** [s.rfind(c)]: index of the last occurrence of [c], or [-1]. *)
Fixpoint rfind_from (i : Z) (c : ascii) (s : string) (found : Z) : Z :=
  match s with
  | EmptyString => found
  | String d r => rfind_from (i + 1) c r (if Ascii.eqb d c then i else found)
  end.

Definition rfind (s : string) (c : ascii) : Z := rfind_from 0 c s (-1).

End Str.

(** ** [urllib.parse.unquote_plus] *)

Module Urllib.

Definition hexval (c : ascii) : option nat :=
  let n := nat_of_ascii c in
  if (48 <=? n)%nat && (n <=? 57)%nat then Some (n - 48)%nat
  else if (65 <=? n)%nat && (n <=? 70)%nat then Some (n - 55)%nat
  else if (97 <=? n)%nat && (n <=? 102)%nat then Some (n - 87)%nat
  else None.

(** The table [_hextobyte]: two hexadecimal digits to one byte. *)
Definition hextobyte (a b : ascii) : option ascii :=
  match hexval a, hexval b with
  | Some x, Some y => Some (ascii_of_nat (16 * x + y))
  | _, _ => None
  end.

(** One piece after a ["%"]: [_hextobyte[item[:2]] + item[2:]], and on
    [KeyError] the piece is kept with its ["%"]. *)
Definition unquote_item (item : string) : string :=
  match item with
  | String a (String b rest) =>
      match hextobyte a b with
      | Some c => String c rest
      | None => String "%"%char item
      end
  | _ => String "%"%char item
  end.

(** [unquote]: split on ["%"], decode each piece after the first. *)
Definition unquote (s : string) : string :=
  match Str.split "%"%char s with
  | [] => EmptyString
  | first :: items => String.append first (Str.join (map unquote_item items))
  end.

(** [unquote_plus(string, encoding='utf-8', errors='replace')]:
    [string.replace('+', ' ')], then [unquote]. *)
Definition unquote_plus (s : string) : string :=
  unquote (Str.replace_char "+"%char " "%char s).

End Urllib.

(** ** [os.path] (posixpath) *)

Module OsPath.

(** [basename(p)]: [i = p.rfind('/') + 1; return p[i:]]. *)
Definition basename (p : string) : string :=
  Str.drop (Z.to_nat (Str.rfind p "/"%char + 1)) p.

(** The loop of [genericpath._splitext] that skips leading dots: is there a
    character other than ["."] at an index in [[filenameIndex, dotIndex)]? *)
Fixpoint has_non_dot (n : nat) (s : string) : bool :=
  match n, s with
  | S n', String c r => negb (Ascii.eqb c "."%char) || has_non_dot n' r
  | _, _ => false
  end.

(** [splitext(p)] with [sep='/'], [altsep=None], [extsep='.']. *)
Definition splitext (p : string) : string * string :=
  let sepIndex := Str.rfind p "/"%char in
  let dotIndex := Str.rfind p "."%char in
  if (sepIndex <? dotIndex) &&
     has_non_dot (Z.to_nat (dotIndex - (sepIndex + 1)))
                 (Str.drop (Z.to_nat (sepIndex + 1)) p)
  then (Str.take (Z.to_nat dotIndex) p, Str.drop (Z.to_nat dotIndex) p)
  else (p, EmptyString).

End OsPath.


(** ** Values, exceptions, outcomes *)

(** JSON-shaped Python values (numbers are the integers).  A [dict] is kept
    as the list of its items; a lookup takes the first item with the key. *)
Inductive pyval : Type :=
| PNone
| PBool (b : bool)
| PInt (n : Z)
| PStr (s : string)
| PList (l : list pyval)
| PDict (d : list (string * pyval)).

(** An exception: its class and [str(e)]. *)
Record exn : Type := Exn { exn_class : string; exn_str : string }.

Inductive outcome (A : Type) : Type :=
| Ok (a : A)
| Raise (e : exn).
Arguments Ok {A} a.
Arguments Raise {A} e.

(** Sequencing of computations that may raise. *)
Definition and_then {A B} (m : outcome A) (k : A -> outcome B) : outcome B :=
  match m with
  | Ok a => k a
  | Raise e => Raise e
  end.

Notation "'let?' x ':=' m 'in' k" := (and_then m (fun x => k))
  (at level 10, x name, m at level 100, k at level 200).
Notation "'let?' '_' ':=' m 'in' k" := (and_then m (fun _ => k))
  (at level 10, m at level 100, k at level 200).

Module Py.

Definition type_name (v : pyval) : string :=
  match v with
  | PNone => "NoneType"
  | PBool _ => "bool"
  | PInt _ => "int"
  | PStr _ => "str"
  | PList _ => "list"
  | PDict _ => "dict"
  end.

Definition KeyError (shown : string) : exn := Exn "KeyError" shown.
Definition IndexError (msg : string) : exn := Exn "IndexError" msg.
Definition TypeError (msg : string) : exn := Exn "TypeError" msg.
Definition AttributeError (msg : string) : exn := Exn "AttributeError" msg.
Definition ValueError (msg : string) : exn := Exn "ValueError" msg.
Definition UnboundLocalError (name : string) : exn :=
  Exn "UnboundLocalError"
      ("cannot access local variable '" +:+ name +:+
       "' where it is not associated with a value").

(** [d.get(k)] on the items of a dict. *)
Fixpoint dict_get (k : string) (d : list (string * pyval)) : option pyval :=
  match d with
  | [] => None
  | (k', v) :: r => if String.eqb k' k then Some v else dict_get k r
  end.

(** [sub in s] on strings. *)
Fixpoint str_contains (s sub : string) : bool :=
  Str.startswith s sub ||
  match s with
  | EmptyString => false
  | String _ r => str_contains r sub
  end.

Definition as_str (v : pyval) : option string :=
  match v with
  | PStr s => Some s
  | _ => None
  end.

Definition is_str (k : string) (v : pyval) : bool :=
  match v with
  | PStr s => String.eqb s k
  | _ => false
  end.

(** [k in v] for a string [k]: key membership on a dict, element
    membership on a list, substring on a string. *)
Definition contains (k : string) (v : pyval) : outcome bool :=
  match v with
  | PDict d => Ok (bool_decide (is_Some (dict_get k d)))
  | PList l => Ok (existsb (is_str k) l)
  | PStr s => Ok (str_contains s k)
  | _ => Raise (TypeError ("argument of type '" +:+ type_name v +:+
                           "' is not iterable"))
  end.

(** A subscript: a string key or an integer index. *)
Inductive subscript : Type :=
| K (k : string)
| I (i : Z).

(** [l[i]] on a sequence of length [n]: the position, if in range. *)
Definition position (n : nat) (i : Z) : option nat :=
  let j := if i <? 0 then i + Z.of_nat n else i in
  if (0 <=? j) && (j <? Z.of_nat n) then Some (Z.to_nat j) else None.

Definition str_get (s : string) (j : nat) : option string :=
  match String.get j s with
  | Some c => Some (String c EmptyString)
  | None => None
  end.

(** The decimal text of an integer, as [repr] shows it. *)
Definition repr_int (i : Z) : string :=
  match i with
  | Z0 => "0"
  | Zpos p => pretty.pretty (Npos p)
  | Zneg p => "-" +:+ pretty.pretty (Npos p)
  end.

(** [v[ix]] *)
Definition getitem (v : pyval) (ix : subscript) : outcome pyval :=
  match v, ix with
  | PDict d, K k =>
      match dict_get k d with
      | Some x => Ok x
      | None => Raise (KeyError ("'" +:+ k +:+ "'"))
      end
  | PDict d, I i => Raise (KeyError (repr_int i))
  | PList l, I i =>
      match position (length l) i with
      | Some j =>
          match l !! j with
          | Some x => Ok x
          | None => Raise (IndexError "list index out of range")
          end
      | None => Raise (IndexError "list index out of range")
      end
  | PList _, K _ =>
      Raise (TypeError "list indices must be integers or slices, not str")
  | PStr s, I i =>
      match position (Str.len s) i with
      | Some j =>
          match str_get s j with
          | Some x => Ok (PStr x)
          | None => Raise (IndexError "string index out of range")
          end
      | None => Raise (IndexError "string index out of range")
      end
  | PStr _, K _ =>
      Raise (TypeError "string indices must be integers, not 'str'")
  | _, _ =>
      Raise (TypeError ("'" +:+ type_name v +:+
                        "' object is not subscriptable"))
  end.

(** [v[i1][i2]...]: subscripts applied from left to right. *)
Fixpoint getpath (v : pyval) (path : list subscript) : outcome pyval :=
  match path with
  | [] => Ok v
  | ix :: rest => let? x := getitem v ix in getpath x rest
  end.

End Py.

(** ** [int(s)] and the unpacking of [map(int, parts)] *)

Module Builtins.

(** ASCII white space as [str.strip] sees it. *)
Definition is_space (c : ascii) : bool :=
  let n := nat_of_ascii c in
  ((9 <=? n)%nat && (n <=? 13)%nat) || ((28 <=? n)%nat && (n <=? 32)%nat).

Fixpoint lstrip (s : string) : string :=
  match s with
  | String c r => if is_space c then lstrip r else s
  | EmptyString => EmptyString
  end.

Definition strip (s : string) : string :=
  String.rev (lstrip (String.rev (lstrip s))).

Definition digit (c : ascii) : option Z :=
  let n := nat_of_ascii c in
  if (48 <=? n)%nat && (n <=? 57)%nat then Some (Z.of_nat n - 48) else None.

(** Digits with single underscores between them; [acc] is the value read so
    far and [after_digit] tells whether the previous character was a digit. *)
Fixpoint digits (acc : Z) (after_digit : bool) (s : string) : option Z :=
  match s with
  | EmptyString => if after_digit then Some acc else None
  | String c r =>
      match digit c with
      | Some d => digits (10 * acc + d) true r
      | None =>
          if Ascii.eqb c "_"%char && after_digit then digits acc false r
          else None
      end
  end.

Definition int_literal (s : string) : option Z :=
  match strip s with
  | String "-"%char r => Z.opp <$> digits 0 false r
  | String "+"%char r => digits 0 false r
  | r => digits 0 false r
  end.

(** [int(s)] in base 10.  The message shows the literal between quotes. *)
Definition int (s : string) : outcome Z :=
  match int_literal s with
  | Some n => Ok n
  | None => Raise (Py.ValueError ("invalid literal for int() with base 10: '"
                                  +:+ s +:+ "'"))
  end.

(** [a, b = map(int, parts)]: the iterator is consumed one element at a
    time, so [int] runs on the third part before the length is found wrong. *)
Definition unpack2_int (parts : list string) : outcome (Z * Z) :=
  match parts with
  | [] => Raise (Py.ValueError "not enough values to unpack (expected 2, got 0)")
  | p1 :: rest1 =>
      let? a := int p1 in
      match rest1 with
      | [] => Raise (Py.ValueError "not enough values to unpack (expected 2, got 1)")
      | p2 :: rest2 =>
          let? b := int p2 in
          match rest2 with
          | [] => Ok (a, b)
          | p3 :: _ =>
              let? _ := int p3 in
              Raise (Py.ValueError "too many values to unpack (expected 2)")
          end
      end
  end.

End Builtins.

(** ** The world outside the handler *)

(** A stored object: its bytes and its content type. *)
Record S3Object : Type := { Body : string; ContentType : string }.

(** An item of the table [FileMetadata]. *)
Record Item : Type := {
  file_id : string;
  original_file : string;
  thumbnail_path : string;
  file_size : pyval;
  file_type : string;
  created_at : string;
  updated_at : string
}.

(** A decoded raster image. *)
Record Image : Type := { width : Z; height : Z; pixels : string }.

(** The state the handler can change: local files (path to bytes), the blob
    store (bucket and key to object), the table (keyed by [file_id]). *)
Record World : Type := {
  fs : gmap string string;
  s3 : gmap (string * string) S3Object;
  table : gmap string Item
}.

(** One external call, with whether it went through. *)
Inductive Call : Type :=
| CPrint (args : list pyval)
| CDownload (bucket : pyval) (key path : string) (ok : bool)
| CPutObject (bucket key : string) (obj : S3Object) (ok : bool)
| CPutItem (item : Item) (ok : bool)
| CRemove (path : string) (ok : bool).

(** What the outside answers during one run. *)
Record Env : Type := {
  uuid4 : string;                          (* str(uuid.uuid4()) *)
  s3_get_fault : option exn;               (* store failure on download *)
  fitz_open : string -> outcome Z;         (* bytes to page_count *)
  fitz_get_pixmap : string -> outcome string;  (* page 0 at 150 dpi *)
  pil_open : string -> outcome Image;      (* pix.tobytes("png"), Image.open *)
  pil_thumbnail : Image -> Z * Z -> outcome Image;
  pil_save_png : Image -> outcome string;
  s3_put_fault : option exn;               (* store failure on put_object *)
  ddb_put_fault : option exn;              (* table failure on put_item *)
  datetime_now : nat -> string;            (* isoformat of the n-th now() *)
  os_remove_fault : nat -> option exn      (* failure of the n-th os.remove *)
}.

(** The handler's frame: the world, the calls made so far in this run
    (oldest first), and the local [download_path] once it is assigned. *)
Record Frame : Type := {
  world : World;
  history : list Call;
  download_path : option string
}.

Definition set_world (w : World) (f : Frame) : Frame :=
  {| world := w; history := history f; download_path := download_path f |}.
Definition log_call (c : Call) (f : Frame) : Frame :=
  {| world := world f; history := history f ++ [c];
     download_path := download_path f |}.
Definition set_fs (m : gmap string string) (w : World) : World :=
  {| fs := m; s3 := s3 w; table := table w |}.
Definition set_s3 (m : gmap (string * string) S3Object) (w : World) : World :=
  {| fs := fs w; s3 := m; table := table w |}.
Definition set_table (m : gmap string Item) (w : World) : World :=
  {| fs := fs w; s3 := s3 w; table := m |}.

(** ** The monad of the handler: state and exceptions *)

Definition M (A : Type) : Type := Frame -> outcome A * Frame.

Definition ret {A} (a : A) : M A := fun f => (Ok a, f).
Definition raise {A} (e : exn) : M A := fun f => (Raise e, f).
Definition lift {A} (o : outcome A) : M A := fun f => (o, f).
Definition bind {A B} (m : M A) (k : A -> M B) : M B := fun f =>
  match m f with
  | (Ok a, f') => k a f'
  | (Raise e, f') => (Raise e, f')
  end.
(** [try: m except Exception as e: h e] *)
Definition try_except {A} (m : M A) (h : exn -> M A) : M A := fun f =>
  match m f with
  | (Ok a, f') => (Ok a, f')
  | (Raise e, f') => h e f'
  end.

Declare Scope py_scope.
Delimit Scope py_scope with py.
Notation "x <- m ;; k" := (bind m (fun x => k))
  (at level 100, m at next level, k at level 200, right associativity) : py_scope.
Notation "m ;;; k" := (bind m (fun _ => k))
  (at level 100, k at level 200, right associativity) : py_scope.
Local Open Scope py_scope.

(** ** External calls *)

(** [print(...)].  A line is kept as the values printed; an f-string is kept
    as its pieces. *)
Definition print (args : list pyval) : M unit := fun f =>
  (Ok tt, log_call (CPrint args) f).

Definition assign_download_path (p : string) : M unit := fun f =>
  (Ok tt, {| world := world f; history := history f; download_path := Some p |}).

(** ['download_path' in locals()] together with the value, if bound. *)
Definition local_download_path : M (option string) := fun f =>
  (Ok (download_path f), f).

(** [s3_client.download_file(bucket, key, path)].  The client refuses a
    bucket that is not a string; otherwise the object is copied to [path],
    unless the store fails or has no such object.  A failed download leaves
    the file system as it was.  The result is the bucket as a string. *)
Definition s3_download_file (env : Env) (bucket : pyval) (key path : string)
  : M string := fun f =>
  let failed e := (Raise e, log_call (CDownload bucket key path false) f) in
  match Py.as_str bucket with
  | Some b =>
      match s3_get_fault env with
      | Some e => failed e
      | None =>
          match s3 (world f) !! (b, key) with
          | Some o =>
              (Ok b, log_call (CDownload bucket key path true)
                       (set_world (set_fs (<[path := Body o]> (fs (world f)))
                                          (world f)) f))
          | None =>
              failed (Exn "ClientError"
                "An error occurred (404) when calling the HeadObject operation: Not Found")
          end
      end
  | None =>
      failed (Py.TypeError ("expected string or bytes-like object, got '"
                            +:+ Py.type_name bucket +:+ "'"))
  end.

(** [fitz.open(path).page_count] *)
Definition fitz_page_count (env : Env) (path : string) : M Z := fun f =>
  match fs (world f) !! path with
  | Some bytes => (fitz_open env bytes, f)
  | None => (Raise (Exn "FileNotFoundError" ("no such file: '" +:+ path +:+ "'")), f)
  end.

(** [doc.load_page(0).get_pixmap(dpi=150)] *)
Definition render_first_page (env : Env) (path : string) : M string := fun f =>
  match fs (world f) !! path with
  | Some bytes => (fitz_get_pixmap env bytes, f)
  | None => (Raise (Exn "FileNotFoundError" ("no such file: '" +:+ path +:+ "'")), f)
  end.

(** [doc.close()]: nothing of the modelled state changes. *)
Definition doc_close : M unit := fun f => (Ok tt, f).

(** [s3_client.put_object(Bucket, Key, Body, ContentType)] *)
Definition s3_put_object (env : Env) (bucket key : string) (o : S3Object)
  : M unit := fun f =>
  match s3_put_fault env with
  | Some e => (Raise e, log_call (CPutObject bucket key o false) f)
  | None =>
      (Ok tt, log_call (CPutObject bucket key o true)
                (set_world (set_s3 (<[(bucket, key) := o]> (s3 (world f)))
                                   (world f)) f))
  end.

(** [table.put_item(Item=item)]: an upsert keyed by [file_id]. *)
Definition table_put_item (env : Env) (item : Item) : M unit := fun f =>
  match ddb_put_fault env with
  | Some e => (Raise e, log_call (CPutItem item false) f)
  | None =>
      (Ok tt, log_call (CPutItem item true)
                (set_world (set_table (<[file_id item := item]> (table (world f)))
                                      (world f)) f))
  end.

Definition is_remove (c : Call) : bool :=
  match c with
  | CRemove _ _ => true
  | _ => false
  end.

(** [os.path.exists(path)] *)
Definition os_path_exists (path : string) : M bool := fun f =>
  (Ok (bool_decide (is_Some (fs (world f) !! path))), f).

(** [os.remove(path)]: fails when the file is missing or when the
    environment makes this deletion fail. *)
Definition os_remove (env : Env) (path : string) : M unit := fun f =>
  match fs (world f) !! path with
  | None =>
      (Raise (Exn "FileNotFoundError"
                  ("[Errno 2] No such file or directory: '" +:+ path +:+ "'")),
       log_call (CRemove path false) f)
  | Some _ =>
      match os_remove_fault env (length (List.filter is_remove (history f))) with
      | Some e => (Raise e, log_call (CRemove path false) f)
      | None =>
          (Ok tt, log_call (CRemove path true)
                    (set_world (set_fs (delete path (fs (world f))) (world f)) f))
      end
  end.

(** ** The module's configuration (lines 16-18) *)

Section Handler.

(** [os.environ] when the module is loaded. *)
Context (environ : gmap string string).

Definition TARGET_BUCKET_NAME : option string := environ !! "TARGET_BUCKET_NAME".
Definition THUMBNAIL_PREFIX : string := default "thumbnails/" (environ !! "THUMBNAIL_PREFIX").
Definition THUMBNAIL_SIZE : string := default "200x200" (environ !! "THUMBNAIL_SIZE").

(** [urllib.parse.unquote_plus(v)] on a value: anything but a [str] has no
    [replace]. *)
Definition unquote_plus (v : pyval) : outcome string :=
  match v with
  | PStr s => Ok (Urllib.unquote_plus s)
  | _ => Raise (Py.AttributeError ("'" +:+ Py.type_name v +:+
                                   "' object has no attribute 'replace'"))
  end.

(** ** [should_process_event] (lines 20-29) *)

Definition should_process_event (event : pyval) : outcome bool :=
  let? in_records := Py.contains "Records" event in
  let? key := (if in_records
         then Py.getpath event [Py.K "Records"; Py.I 0; Py.K "s3"; Py.K "object"; Py.K "key"]
         else Py.getpath event [Py.K "detail"; Py.K "object"; Py.K "key"]) in
  let? key := unquote_plus key in
  Ok (Str.endswith (Str.lower key) ".pdf" &&
      negb (Str.startswith (Str.lower key) (Str.lower THUMBNAIL_PREFIX))).

(** ** [store_metadata] (lines 31-48) *)

Definition store_metadata (env : Env)
    (file_id original_file thumbnail_path : string) (file_size : pyval)
  : M unit :=
  try_except
    (table_put_item env
       {| file_id := file_id;
          original_file := original_file;
          thumbnail_path := thumbnail_path;
          file_size := file_size;
          file_type := "pdf";
          created_at := datetime_now env 0;
          updated_at := datetime_now env 1 |})
    (fun e =>
       print [PStr ("Error storing metadata: " +:+ exn_str e)];;;
       raise e).

(** ** [lambda_handler] (lines 50-139) *)

Definition response (status : Z) (body : pyval) : pyval :=
  PDict [("statusCode", PInt status); ("body", body)].

Definition skipped : pyval := response 200 (PStr "Skipped non-PDF or thumbnail").
Definition no_pages : pyval := response 400 (PStr "PDF has no pages.").
Definition processed (file_id thumbnail_key : string) : pyval :=
  response 200 (PDict [("message", PStr "Successfully processed PDF");
                       ("file_id", PStr file_id);
                       ("thumbnail_path", PStr thumbnail_key)]).

(** Lines 60-68: bucket, decoded key and size from whichever shape. *)
Definition parse_event (event : pyval) : outcome (pyval * string * pyval) :=
  let? in_records := Py.contains "Records" event in
  if negb in_records then
    let? source_bucket_name := Py.getpath event [Py.K "detail"; Py.K "bucket"; Py.K "name"] in
    let? source_object_key :=
      and_then (Py.getpath event [Py.K "detail"; Py.K "object"; Py.K "key"])
               unquote_plus in
    let? file_size := Py.getpath event [Py.K "detail"; Py.K "object"; Py.K "size"] in
    Ok (source_bucket_name, source_object_key, file_size)
  else
    let? record := Py.getpath event [Py.K "Records"; Py.I 0] in
    let? source_bucket_name := Py.getpath record [Py.K "s3"; Py.K "bucket"; Py.K "name"] in
    let? source_object_key :=
      and_then (Py.getpath record [Py.K "s3"; Py.K "object"; Py.K "key"])
               unquote_plus in
    let? file_size := Py.getpath record [Py.K "s3"; Py.K "object"; Py.K "size"] in
    Ok (source_bucket_name, source_object_key, file_size).

(** Line 100 *)
Definition thumbnail_key_of (source_object_key : string) : string :=
  THUMBNAIL_PREFIX +:+
  fst (OsPath.splitext (OsPath.basename source_object_key)) +:+ ".png".

(** Line 101: an unset or empty [TARGET_BUCKET_NAME] is falsy. *)
Definition target_bucket_of (source_bucket_name : string) : string :=
  match TARGET_BUCKET_NAME with
  | Some b => if String.eqb b "" then source_bucket_name else b
  | None => source_bucket_name
  end.

(** Line 92 *)
Definition thumbnail_size : outcome (Z * Z) :=
  Builtins.unpack2_int (Str.split "x"%char THUMBNAIL_SIZE).

(** The body of the [try] (lines 59-127). *)
Definition try_body (env : Env) (event : pyval) : M pyval :=
  parsed <- lift (parse_event event);;
  let '(source_bucket_name, source_object_key, file_size) := parsed in
  print [PStr "Processing: s3://"; source_bucket_name; PStr "/";
         PStr source_object_key];;;
  let file_id := uuid4 env in
  let download_path := "/tmp/" +:+ OsPath.basename source_object_key in
  assign_download_path download_path;;;
  source_bucket <- s3_download_file env source_bucket_name source_object_key
                                   download_path;;
  page_count <- fitz_page_count env download_path;;
  if negb (0 <? page_count) then
    doc_close;;;
    os_remove env download_path;;;
    ret no_pages
  else
    pix <- render_first_page env download_path;;
    doc_close;;;
    img <- lift (pil_open env pix);;
    size <- lift thumbnail_size;;
    img <- lift (pil_thumbnail env img size);;
    thumbnail_io <- lift (pil_save_png env img);;
    let thumbnail_key := thumbnail_key_of source_object_key in
    let target_bucket := target_bucket_of source_bucket in
    s3_put_object env target_bucket thumbnail_key
      {| Body := thumbnail_io; ContentType := "image/png" |};;;
    store_metadata env file_id
      ("s3://" +:+ source_bucket +:+ "/" +:+ source_object_key)
      ("s3://" +:+ target_bucket +:+ "/" +:+ thumbnail_key)
      file_size;;;
    os_remove env download_path;;;
    ret (processed file_id thumbnail_key).

(** The [except] handler (lines 129-139).  The inner [except ... as e]
    rebinds the name [e] and unbinds it when its clause ends, so the final
    [str(e)] finds [e] bound only if the inner clause did not run. *)
Definition except_handler (env : Env) (e : exn) : M pyval :=
  print [PStr ("Error: " +:+ exn_str e)];;;
  bound <- local_download_path;;
  e_after <- match bound with
             | Some download_path =>
                 there <- os_path_exists download_path;;
                 if there then
                   try_except
                     (os_remove env download_path;;; ret (Some e))
                     (fun e' =>
                        print [PStr ("Cleanup error: " +:+ exn_str e')];;;
                        ret None)
                 else ret (Some e)
             | None => ret (Some e)
             end;;
  match e_after with
  | Some e => ret (response 500 (PStr (exn_str e)))
  | None => raise (Py.UnboundLocalError "e")
  end.

Definition handler (env : Env) (event : pyval) : M pyval :=
  print [PStr "Received event:"; event];;;
  go <- lift (should_process_event event);;
  if negb go then
    print [PStr "Skipping event - not a PDF upload or is a thumbnail"];;;
    ret skipped
  else
    try_except (try_body env event) (except_handler env).

(** One invocation: what the handler returns or raises, the world it
    leaves, and the calls it made.  The handler's second parameter,
    [context], is not used by the code and is left out. *)
Record Run : Type := { result : outcome pyval; after : World; calls : list Call }.

Definition lambda_handler (env : Env) (event : pyval) (w : World) : Run :=
  let '(r, f) := handler env event
                   {| world := w; history := []; download_path := None |} in
  {| result := r; after := world f; calls := history f |}.

End Handler.

(** ** Notifications, as the specification describes them *)

(** [v.get(k)] when [v] is a dict. *)
Definition field (k : string) (v : pyval) : option pyval :=
  match v with
  | PDict d => Py.dict_get k d
  | _ => None
  end.

(** The node [{bucket: {name}, object: {key, size}}] of a notification: the
    [s3] entry of the first of its [Records] (shape A), or its [detail]
    when it has no [Records] (shape B). *)
Inductive payload : pyval -> pyval -> Prop :=
| payload_records d r rest n :
    Py.dict_get "Records" d = Some (PList (r :: rest)) ->
    field "s3" r = Some n ->
    payload (PDict d) n
| payload_detail d n :
    Py.dict_get "Records" d = None ->
    Py.dict_get "detail" d = Some n ->
    payload (PDict d) n.

(** The event carries the (percent-encoded) object key [raw]. *)
Definition carries_key (event : pyval) (raw : string) : Prop :=
  exists n, payload event n /\
            field "object" n ≫= field "key" = Some (PStr raw).

(** The event names [bucket], the key [raw] and [size]. *)
Definition notification (event bucket : pyval) (raw : string) (size : pyval)
  : Prop :=
  exists n, payload event n /\
            field "bucket" n ≫= field "name" = Some bucket /\
            field "object" n ≫= field "key" = Some (PStr raw) /\
            field "object" n ≫= field "size" = Some size.

(** The frame in which the [try] block starts: the event has been printed. *)
Definition entry_frame (event : pyval) (w : World) : Frame :=
  {| world := w;
     history := [CPrint [PStr "Received event:"; event]];
     download_path := None |}.


(** ** Histories *)

(** Does every [put_item] of a history come after a [put_object] that went
    through?  [published] tells whether one was already seen. *)
Fixpoint recorded_after_published (published : bool) (h : list Call) : bool :=
  match h with
  | [] => true
  | CPutObject _ _ _ true :: later => recorded_after_published true later
  | CPutItem _ _ :: later => published && recorded_after_published published later
  | _ :: later => recorded_after_published published later
  end.

(** ** Sample inputs *)

(** Shape A record: [{s3: {bucket: {name}, object: {key, size}}}] *)
Definition s3_node (bucket key : string) (size : Z) : pyval :=
  PDict [("bucket", PDict [("name", PStr bucket)]);
         ("object", PDict [("key", PStr key); ("size", PInt size)])].
Definition s3_record (bucket key : string) (size : Z) : pyval :=
  PDict [("s3", s3_node bucket key size)].
Definition records_event (records : list pyval) : pyval :=
  PDict [("Records", PList records)].
(** Shape B: [{detail: {bucket: {name}, object: {key, size}}}] *)
Definition detail_event (bucket key : string) (size : Z) : pyval :=
  PDict [("detail", s3_node bucket key size)].

Module Sample.

Definition no_environ : gmap string string := ∅.

Definition page : Image := {| width := 1240; height := 1754; pixels := "page" |}.
Definition thumb : Image := {| width := 141; height := 200; pixels := "thumb" |}.

(** An environment in which nothing fails and the document has one page. *)
Definition env (id : string) : Env :=
  {| uuid4 := id;
     s3_get_fault := None;
     fitz_open := fun _ => Ok 1;
     fitz_get_pixmap := fun _ => Ok "pixmap";
     pil_open := fun _ => Ok page;
     pil_thumbnail := fun _ _ => Ok thumb;
     pil_save_png := fun _ => Ok "PNG";
     s3_put_fault := None;
     ddb_put_fault := None;
     datetime_now := fun n => match n with
                              | O => "2024-04-01T10:00:00.000001"
                              | _ => "2024-04-01T10:00:00.000002"
                              end;
     os_remove_fault := fun _ => None |}.

Definition with_page_count (n : Z) (e : Env) : Env :=
  {| uuid4 := uuid4 e; s3_get_fault := s3_get_fault e;
     fitz_open := fun _ => Ok n; fitz_get_pixmap := fitz_get_pixmap e;
     pil_open := pil_open e;
     pil_thumbnail := pil_thumbnail e; pil_save_png := pil_save_png e;
     s3_put_fault := s3_put_fault e; ddb_put_fault := ddb_put_fault e;
     datetime_now := datetime_now e; os_remove_fault := os_remove_fault e |}.

Definition with_remove_fault (flt : nat -> option exn) (e : Env) : Env :=
  {| uuid4 := uuid4 e; s3_get_fault := s3_get_fault e;
     fitz_open := fitz_open e; fitz_get_pixmap := fitz_get_pixmap e;
     pil_open := pil_open e;
     pil_thumbnail := pil_thumbnail e; pil_save_png := pil_save_png e;
     s3_put_fault := s3_put_fault e; ddb_put_fault := ddb_put_fault e;
     datetime_now := datetime_now e; os_remove_fault := flt |}.

Definition busy : exn :=
  Exn "PermissionError" "[Errno 13] Permission denied: '/tmp/Q1 2024.pdf'".

(** Every deletion fails. *)
Definition env_stuck : Env := with_remove_fault (fun _ => Some busy) (env "id-1").
(** Only the first deletion fails. *)
Definition env_stuck_once : Env :=
  with_remove_fault (fun n => match n with O => Some busy | _ => None end)
                    (env "id-1").
(** The document has no pages. *)
Definition env_no_pages : Env := with_page_count 0 (env "id-1").
(** The document has no pages and every deletion fails. *)
Definition env_no_pages_stuck : Env :=
  with_remove_fault (fun _ => Some busy) env_no_pages.

Definition pdf : S3Object := {| Body := "%PDF-1.7"; ContentType := "application/pdf" |}.

(** A store holding one document, an empty table, an empty [/tmp]. *)
Definition world : World :=
  {| fs := ∅; s3 := {[ ("docs", "reports/Q1 2024.pdf") := pdf ]}; table := ∅ |}.

Definition event : pyval := records_event [s3_record "docs" "reports/Q1+2024.pdf" 10240].
Definition event_b : pyval := detail_event "docs" "reports/Q1%202024.pdf" 10240.
Definition thumbnail_event : pyval := detail_event "docs" "thumbnails/x.pdf" 512.
(** A batch of two records that also has a [detail] entry. *)
Definition first_record : pyval := s3_record "docs" "reports/Q1+2024.pdf" 10240.
Definition batch : list (string * pyval) :=
  [("detail", s3_node "other" "notes.txt" 1);
   ("Records", PList [first_record; s3_record "docs" "b.pdf" 7])].

End Sample.

(** ** Further sample inputs *)

Module Cases.

(** Configurations: an empty prefix, a size with one number, a size written
    with a capital X. *)
Definition no_prefix : gmap string string := {[ "THUMBNAIL_PREFIX" := "" ]}.
Definition capital_x : gmap string string := {[ "THUMBNAIL_SIZE" := "200X200" ]}.

(** The notification of a thumbnail the handler wrote. *)
Definition derived_event : pyval := detail_event "docs" "thumbnails/Q1+2024.png" 99.

(** An empty batch next to a well-formed [detail]. *)
Definition empty_batch : list (string * pyval) :=
  [("detail", s3_node "docs" "a.pdf" 1); ("Records", PList [])].

(** A [detail] that has the object but not the bucket. *)
Definition no_bucket_event : pyval :=
  PDict [("detail",
          PDict [("object", PDict [("key", PStr "a.pdf"); ("size", PInt 1)])])].

Definition with_get_fault (flt : exn) (e : Env) : Env :=
  {| uuid4 := uuid4 e; s3_get_fault := Some flt;
     fitz_open := fitz_open e; fitz_get_pixmap := fitz_get_pixmap e;
     pil_open := pil_open e;
     pil_thumbnail := pil_thumbnail e; pil_save_png := pil_save_png e;
     s3_put_fault := s3_put_fault e; ddb_put_fault := ddb_put_fault e;
     datetime_now := datetime_now e; os_remove_fault := os_remove_fault e |}.

Definition with_ddb_fault (flt : exn) (e : Env) : Env :=
  {| uuid4 := uuid4 e; s3_get_fault := s3_get_fault e;
     fitz_open := fitz_open e; fitz_get_pixmap := fitz_get_pixmap e;
     pil_open := pil_open e;
     pil_thumbnail := pil_thumbnail e; pil_save_png := pil_save_png e;
     s3_put_fault := s3_put_fault e; ddb_put_fault := Some flt;
     datetime_now := datetime_now e; os_remove_fault := os_remove_fault e |}.

Definition unreachable : exn :=
  Exn "EndpointConnectionError" "Could not connect to the endpoint URL".
Definition throttled : exn :=
  Exn "ClientError" "An error occurred (ThrottlingException) when calling the PutItem operation".

Definition env_unreachable : Env := with_get_fault unreachable (Sample.env "id-1").
Definition env_throttled : Env := with_ddb_fault throttled (Sample.env "id-1").

(** Two documents of one name in two folders. *)
Definition two_folders : World :=
  {| fs := ∅;
     s3 := {[ ("docs", "a/x.pdf") := Sample.pdf; ("docs", "b/x.pdf") := Sample.pdf ]};
     table := ∅ |}.
Definition event_in_a : pyval := detail_event "docs" "a/x.pdf" 8.
Definition event_in_b : pyval := detail_event "docs" "b/x.pdf" 8.

(** The record the sample run writes. *)
Definition sample_item : Item :=
  {| file_id := "id-1";
     original_file := "s3://docs/reports/Q1 2024.pdf";
     thumbnail_path := "s3://docs/thumbnails/Q1 2024.png";
     file_size := PInt 10240;
     file_type := "pdf";
     created_at := "2024-04-01T10:00:00.000001";
     updated_at := "2024-04-01T10:00:00.000002" |}.

End Cases.

(** * Properties *)

(** ** Strings *)

Lemma app_cons c s t : String c s +:+ t = String c (s +:+ t).
Proof. reflexivity. Qed.

Lemma app_nil_l t : "" +:+ t = t.
Proof. reflexivity. Qed.


Lemma len_app s t : Str.len (s +:+ t) = (Str.len s + Str.len t)%nat.
Proof.
  induction s as [|c s IH]; [reflexivity|].
  rewrite app_cons. unfold Str.len in *. simpl. by rewrite IH.
Qed.

Lemma drop_app s t : Str.drop (Str.len s) (s +:+ t) = t.
Proof.
  induction s as [|c s IH]; [by destruct t|].
  rewrite app_cons. exact IH.
Qed.

Lemma take_drop n s : Str.take n s +:+ Str.drop n s = s.
Proof.
  revert s. induction n as [|n IH]; intros [|c s]; try reflexivity.
  simpl. by rewrite app_cons, IH.
Qed.

Lemma len_take n s : (n <= Str.len s)%nat → Str.len (Str.take n s) = n.
Proof.
  revert s. induction n as [|n IH]; intros [|c s]; simpl; try done; try lia.
  intros ?. f_equal. apply IH. lia.
Qed.

Lemma endswith_iff s p :
  Str.endswith s p = true ↔ ∃ q, s = q +:+ p.
Proof.
  unfold Str.endswith. rewrite andb_true_iff, Nat.leb_le, String.eqb_eq. split.
  - intros [Hle Hd]. exists (Str.take (Str.len s - Str.len p) s).
    rewrite <- Hd at 2. by rewrite take_drop.
  - intros [q ->]. rewrite len_app. split; [lia|].
    replace (Str.len q + Str.len p - Str.len p)%nat with (Str.len q) by lia.
    apply drop_app.
Qed.

Lemma splitext_join p :
  fst (OsPath.splitext p) +:+ snd (OsPath.splitext p) = p.
Proof.
  unfold OsPath.splitext. cbv zeta. case_match; cbn [fst snd]; [apply take_drop|].
  clear. induction p as [|c p IH]; [reflexivity | by rewrite app_cons, IH].
Qed.

(** ** Reading the event *)

Lemma getitem_key v k x : Py.getitem v (Py.K k) = Ok x ↔ field k v = Some x.
Proof.
  destruct v; simpl; try (split; discriminate).
  destruct (Py.dict_get k d); split; congruence.
Qed.

Lemma getitem_field v k x : field k v = Some x → Py.getitem v (Py.K k) = Ok x.
Proof. apply getitem_key. Qed.

Lemma getpath_cons v ix x rest :
  Py.getitem v ix = Ok x → Py.getpath v (ix :: rest) = Py.getpath x rest.
Proof. intros H. simpl. by rewrite H. Qed.

Lemma getpath2 n a b x :
  field a n ≫= field b = Some x → Py.getpath n [Py.K a; Py.K b] = Ok x.
Proof.
  intros H. destruct (field a n) as [m|] eqn:Ha; [|discriminate]. simpl in H.
  rewrite (getpath_cons _ _ m) by by apply getitem_field.
  rewrite (getpath_cons _ _ x) by by apply getitem_field. done.
Qed.

Lemma getpath2_inv n a b x :
  Py.getpath n [Py.K a; Py.K b] = Ok x → field a n ≫= field b = Some x.
Proof.
  simpl. destruct (Py.getitem n (Py.K a)) as [m|] eqn:Ha; [|discriminate].
  apply getitem_key in Ha. rewrite Ha. simpl.
  destruct (Py.getitem m (Py.K b)) as [y|] eqn:Hb; [|discriminate].
  apply getitem_key in Hb. simpl. congruence.
Qed.

Lemma getpath3 r a b c n x :
  field a r = Some n → field b n ≫= field c = Some x →
  Py.getpath r [Py.K a; Py.K b; Py.K c] = Ok x.
Proof.
  intros Ha H. rewrite (getpath_cons _ _ n) by by apply getitem_field.
  by apply getpath2.
Qed.

Lemma getpath3_inv r a b c x :
  Py.getpath r [Py.K a; Py.K b; Py.K c] = Ok x →
  ∃ n, field a r = Some n ∧ field b n ≫= field c = Some x.
Proof.
  intros H. cbn [Py.getpath] in H.
  destruct (Py.getitem r (Py.K a)) as [n|] eqn:Ha; [|discriminate].
  exists n. split; [by apply getitem_key | by apply getpath2_inv].
Qed.

Lemma contains_records d :
  Py.contains "Records" (PDict d) =
  Ok (match Py.dict_get "Records" d with Some _ => true | None => false end).
Proof. simpl. by destruct (Py.dict_get "Records" d). Qed.

Lemma first_record d r rest :
  Py.dict_get "Records" d = Some (PList (r :: rest)) →
  Py.getpath (PDict d) [Py.K "Records"; Py.I 0] = Ok r.
Proof. intros H. simpl. by rewrite H. Qed.

Lemma first_record_inv event r n :
  Py.getpath event [Py.K "Records"; Py.I 0] = Ok r →
  field "s3" r = Some n →
  ∃ d rest, event = PDict d ∧ Py.dict_get "Records" d = Some (PList (r :: rest)).
Proof.
  intros H Hn. cbn [Py.getpath] in H.
  destruct (Py.getitem event (Py.K "Records")) as [v|] eqn:Hv; [|discriminate].
  apply getitem_key in Hv. destruct event as [| | | | |d]; try discriminate.
  exists d. simpl in Hv, H. rewrite Hv.
  destruct v as [| | |s|l|d']; try discriminate.
  - exfalso. unfold Py.getitem in H.
    destruct (Py.position _ _); [|discriminate].
    destruct (Py.str_get _ _); [|discriminate].
    simpl in H. by simplify_eq.
  - destruct l as [|r' rest]; [discriminate|]. simpl in H.
    simplify_eq. eauto.
Qed.

Section Reading.
Context (environ : gmap string string).

Lemma parse_event_notification event bucket raw size :
  notification event bucket raw size →
  parse_event event = Ok (bucket, Urllib.unquote_plus raw, size).
Proof.
  intros (n & Hp & Hb & Hk & Hs). unfold parse_event.
  destruct Hp as [d r rest n Hr Hn | d n Hr Hn];
    rewrite contains_records, Hr; cbn [and_then negb].
  - rewrite (first_record _ _ _ Hr). cbn [and_then].
    rewrite (getpath3 _ _ _ _ _ _ Hn Hb), (getpath3 _ _ _ _ _ _ Hn Hk),
      (getpath3 _ _ _ _ _ _ Hn Hs). done.
  - assert (Hn' : field "detail" (PDict d) = Some n) by done.
    rewrite (getpath3 _ _ _ _ _ _ Hn' Hb), (getpath3 _ _ _ _ _ _ Hn' Hk),
      (getpath3 _ _ _ _ _ _ Hn' Hs). done.
Qed.

Lemma parse_event_inv event bucket key size :
  parse_event event = Ok (bucket, key, size) →
  ∃ raw, notification event bucket raw size ∧ key = Urllib.unquote_plus raw.
Proof.
  unfold parse_event. intros H.
  destruct (Py.contains "Records" event) as [c|] eqn:Hc; [|discriminate H].
  cbn [and_then] in H. destruct c; cbn [negb] in H.
  - destruct (Py.getpath event [Py.K "Records"; Py.I 0]) as [r|] eqn:Hr;
      [|discriminate H]. cbn [and_then] in H.
    destruct (Py.getpath r [Py.K "s3"; Py.K "bucket"; Py.K "name"])
      as [b|] eqn:Hb; [|discriminate H]. cbn [and_then] in H.
    destruct (Py.getpath r [Py.K "s3"; Py.K "object"; Py.K "key"])
      as [k|] eqn:Hk; [|discriminate H]. cbn [and_then] in H.
    destruct k as [| | |raw| |]; try discriminate H. cbn [unquote_plus and_then] in H.
    destruct (Py.getpath r [Py.K "s3"; Py.K "object"; Py.K "size"])
      as [z|] eqn:Hz; [|discriminate H]. cbn [and_then] in H.
    simplify_eq.
    apply getpath3_inv in Hb as (n & Hn & Hb).
    apply getpath3_inv in Hk as (n' & Hn' & Hk).
    apply getpath3_inv in Hz as (n'' & Hn'' & Hz). simplify_eq.
    destruct (first_record_inv _ _ _ Hr Hn) as (d & rest & -> & Hd).
    exists raw. split; [|done]. exists n. eauto using payload.
  - destruct event as [| | |s|l|d]; try discriminate Hc.
    + exfalso. simpl in Hc, H. simplify_eq.
    + exfalso. simpl in Hc, H. simplify_eq.
    + rewrite contains_records in Hc.
      destruct (Py.dict_get "Records" d) eqn:Hd; [discriminate Hc|].
      destruct (Py.getpath (PDict d) [Py.K "detail"; Py.K "bucket"; Py.K "name"])
        as [b|] eqn:Hb; [|discriminate H]. cbn [and_then] in H.
      destruct (Py.getpath (PDict d) [Py.K "detail"; Py.K "object"; Py.K "key"])
        as [k|] eqn:Hk; [|discriminate H]. cbn [and_then] in H.
      destruct k as [| | |raw| |]; try discriminate H.
      cbn [unquote_plus and_then] in H.
      destruct (Py.getpath (PDict d) [Py.K "detail"; Py.K "object"; Py.K "size"])
        as [z|] eqn:Hz; [|discriminate H]. cbn [and_then] in H.
      simplify_eq.
      apply getpath3_inv in Hb as (n & Hn & Hb).
      apply getpath3_inv in Hk as (n' & Hn' & Hk).
      apply getpath3_inv in Hz as (n'' & Hn'' & Hz). simplify_eq.
      exists raw. split; [|done]. exists n. eauto using payload.
Qed.

Lemma classify_key event raw :
  carries_key event raw →
  should_process_event environ event =
  Ok (Str.endswith (Str.lower (Urllib.unquote_plus raw)) ".pdf" &&
      negb (Str.startswith (Str.lower (Urllib.unquote_plus raw))
                           (Str.lower (THUMBNAIL_PREFIX environ)))).
Proof.
  intros (n & Hp & Hk). unfold should_process_event.
  destruct Hp as [d r rest n Hr Hn | d n Hr Hn];
    rewrite contains_records, Hr; cbn [and_then].
  - change [Py.K "Records"; Py.I 0; Py.K "s3"; Py.K "object"; Py.K "key"]
      with ([Py.K "Records"; Py.I 0] ++ [Py.K "s3"; Py.K "object"; Py.K "key"]).
    cbn [Py.getpath app]. simpl Py.getitem. rewrite Hr. cbn [and_then]. simpl Py.getitem.
    cbn [and_then].
    fold (Py.getpath r [Py.K "s3"; Py.K "object"; Py.K "key"]).
    rewrite (getpath3 _ _ _ _ _ _ Hn Hk). done.
  - assert (Hn' : field "detail" (PDict d) = Some n) by done.
    rewrite (getpath3 _ _ _ _ _ _ Hn' Hk). done.
Qed.

End Reading.

Lemma as_str_Some v s : Py.as_str v = Some s → v = PStr s.
Proof. destruct v; intros H; by inversion H. Qed.

Lemma payload_functional event n n' : payload event n → payload event n' → n = n'.
Proof.
  intros H H'. destruct H as [d r rest n Hr Hn | d n Hr Hn];
    inversion H' as [d' r' rest' m Hr' Hm | d' m Hr' Hm]; subst; congruence.
Qed.

Lemma carries_key_functional event raw raw' :
  carries_key event raw → carries_key event raw' → raw = raw'.
Proof.
  intros (n & Hp & Hk) (n' & Hp' & Hk').
  rewrite (payload_functional _ _ _ Hp Hp') in Hk. congruence.
Qed.

Lemma notification_carries_key event bucket raw size :
  notification event bucket raw size → carries_key event raw.
Proof. intros (n & ? & ? & ? & ?). by exists n. Qed.

(** ** Histories *)

Lemma recorded_after_published_sound before :
  ∀ published h item ok later,
    h = before ++ CPutItem item ok :: later →
    recorded_after_published published h = true →
    published = true ∨ ∃ b k o, CPutObject b k o true ∈ before.
Proof.
  induction before as [|c before IH]; intros published h item ok later -> Hc.
  - simpl in Hc. apply andb_true_iff in Hc as [-> _]. by left.
  - cbn [app] in Hc.
    assert (Hnext : ∃ p', recorded_after_published p'
                            (before ++ CPutItem item ok :: later) = true
                          ∧ (p' = true → published = true ∨
                             ∃ b k o, c = CPutObject b k o true)).
    { destruct c as [args|b k p okc|b k o okc|it okc|p okc]; cbn in Hc.
      - exists published. auto.
      - exists published. auto.
      - destruct okc.
        + exists true. split; [done|]. intros _. right. eauto.
        + exists published. auto.
      - apply andb_true_iff in Hc as [-> Hc]. exists true. auto.
      - exists published. auto. }
    destruct Hnext as (p' & Hc' & Hp').
    destruct (IH p' _ item ok later eq_refl Hc') as [Hp|(b & k & o & Hin)].
    + destruct (Hp' Hp) as [?|(b & k & o & ->)]; [by left|].
      right. exists b, k, o. apply list_elem_of_here.
    + right. exists b, k, o. by apply list_elem_of_further.
Qed.

(** ** Running the handler on every path *)

#[global] Arguments should_process_event : simpl never.
#[global] Arguments parse_event : simpl never.
#[global] Arguments thumbnail_size : simpl never.
#[global] Arguments thumbnail_key_of : simpl never.
#[global] Arguments target_bucket_of : simpl never.
#[global] Arguments OsPath.basename : simpl never.
#[global] Arguments OsPath.splitext : simpl never.
#[global] Arguments Urllib.unquote_plus : simpl never.
#[global] Arguments Py.as_str : simpl never.
#[global] Arguments Py.type_name : simpl never.

Ltac unfold_run :=
  unfold lambda_handler, handler, try_body, except_handler, store_metadata,
    bind, try_except, ret, raise, lift, print, assign_download_path,
    local_download_path, s3_download_file, fitz_page_count, render_first_page,
    doc_close, s3_put_object, table_put_item, os_path_exists, os_remove in *.

Ltac innermost x :=
  lazymatch x with
  | context [match ?y with _ => _ end] => innermost y
  | _ => destruct x eqn:?
  end.

(** One branching point: the classifier, the parsed event, or the innermost
    answer of the environment the code is waiting for. *)
Ltac run_step :=
  simpl; rewrite ?lookup_insert_eq; simpl;
  match goal with
  | |- context [should_process_event ?e ?v] =>
      destruct (should_process_event e v) as [[|]|?] eqn:?
  | |- context [parse_event ?v] =>
      destruct (parse_event v) as [[[? ?] ?]|?] eqn:?
  | |- context [match ?x with _ => _ end] => innermost x
  end;
  try match goal with
      | H : <[?p:=_]> _ !! ?p = _ |- _ =>
          rewrite lookup_insert_eq in H; simplify_eq
      end.

(** Every path of one invocation: the run is named, executed once, and
    replaced by what it evaluates to on each path. *)
Ltac run :=
  match goal with
  | |- context [lambda_handler ?E ?env ?ev ?w] =>
      let R := fresh "R" in
      let HR := fresh "HR" in
      remember (lambda_handler E env ev w) as R eqn:HR;
      revert HR; unfold_run; repeat run_step; simpl;
      intros ->; cbn [result after calls]
  end.

Ltac find_call :=
  repeat first [ apply list_elem_of_here | apply list_elem_of_further ].

Ltac no_such_call H :=
  repeat (apply elem_of_cons in H as [H|H]; [discriminate H|]);
  apply elem_of_nil in H; contradiction.

(** The calls of a history that a membership hypothesis can be. *)
Ltac call_cases H :=
  repeat (apply elem_of_cons in H as [H|H]; [try discriminate H|]);
  try (apply elem_of_nil in H; contradiction).

(** ** The classifier's test and the [try] block *)

Lemma lambda_handler_accepted environ env event w :
  should_process_event environ event = Ok true →
  lambda_handler environ env event w =
  let '(r, f) := try_except (try_body environ env event) (except_handler env)
                            (entry_frame event w) in
  {| result := r; after := world f; calls := history f |}.
Proof.
  intros Hgo. unfold lambda_handler, handler, bind, print, lift.
  by rewrite Hgo.
Qed.




(** ** Sample notifications *)

Lemma sample_event_notification :
  notification Sample.event (PStr "docs") "reports/Q1+2024.pdf" (PInt 10240).
Proof.
  exists (s3_node "docs" "reports/Q1+2024.pdf" 10240). split.
  - by apply (payload_records _ Sample.first_record []).
  - by repeat split.
Defined.

Lemma sample_event_b_notification :
  notification Sample.event_b (PStr "docs") "reports/Q1%202024.pdf" (PInt 10240).
Proof.
  exists (s3_node "docs" "reports/Q1%202024.pdf" 10240). split.
  - by apply payload_detail.
  - by repeat split.
Defined.


(** ** The specification's examples, evaluated *)

Example decode_plus_and_percent :
  Urllib.unquote_plus "reports/Q1+2024%2Epdf" = "reports/Q1 2024.pdf".
Proof. reflexivity. Qed.

Example decode_keeps_malformed_escapes :
  Urllib.unquote_plus "a%zz%4" = "a%zz%4".
Proof. reflexivity. Qed.

Example splitext_plain : OsPath.splitext "Q1 2024.pdf" = ("Q1 2024", ".pdf").
Proof. reflexivity. Qed.

Example splitext_leading_dots : OsPath.splitext "..pdf" = ("..pdf", "").
Proof. reflexivity. Qed.

Example derived_key_of_the_example :
  thumbnail_key_of Sample.no_environ "reports/Q1 2024.pdf"
  = "thumbnails/Q1 2024.png".
Proof. reflexivity. Qed.

(** A base name that is only a dot and letters has no extension for
    [splitext]: nothing is removed from it. *)
Example derived_key_of_a_dot_file :
  thumbnail_key_of Sample.no_environ "docs/.pdf" = "thumbnails/.pdf.png".
Proof. reflexivity. Qed.

Example default_thumbnail_size : thumbnail_size Sample.no_environ = Ok (200, 200).
Proof. reflexivity. Qed.

Example thumbnail_size_one_number :
  thumbnail_size {[ "THUMBNAIL_SIZE" := "200" ]}
  = Raise (Py.ValueError "not enough values to unpack (expected 2, got 1)").
Proof. reflexivity. Qed.

Example thumbnail_size_not_a_number :
  thumbnail_size {[ "THUMBNAIL_SIZE" := "200xauto" ]}
  = Raise (Py.ValueError "invalid literal for int() with base 10: 'auto'").
Proof. reflexivity. Qed.

Example run_of_the_example :
  lambda_handler Sample.no_environ (Sample.env "id-1") Sample.event_b Sample.world
  = {| result := Ok (PDict [("statusCode", PInt 200);
                            ("body", PDict [("message", PStr "Successfully processed PDF");
                                            ("file_id", PStr "id-1");
                                            ("thumbnail_path", PStr "thumbnails/Q1 2024.png")])]);
       after :=
         {| fs := ∅;
            s3 := <[ ("docs", "thumbnails/Q1 2024.png") :=
                       {| Body := "PNG"; ContentType := "image/png" |} ]>
                    (s3 Sample.world);
            table := {[ "id-1" :=
                          {| file_id := "id-1";
                             original_file := "s3://docs/reports/Q1 2024.pdf";
                             thumbnail_path := "s3://docs/thumbnails/Q1 2024.png";
                             file_size := PInt 10240;
                             file_type := "pdf";
                             created_at := "2024-04-01T10:00:00.000001";
                             updated_at := "2024-04-01T10:00:00.000002" |} ]} |};
       calls :=
         [CPrint [PStr "Received event:"; Sample.event_b];
          CPrint [PStr "Processing: s3://"; PStr "docs"; PStr "/";
                  PStr "reports/Q1 2024.pdf"];
          CDownload (PStr "docs") "reports/Q1 2024.pdf" "/tmp/Q1 2024.pdf" true;
          CPutObject "docs" "thumbnails/Q1 2024.png"
                     {| Body := "PNG"; ContentType := "image/png" |} true;
          CPutItem {| file_id := "id-1";
                      original_file := "s3://docs/reports/Q1 2024.pdf";
                      thumbnail_path := "s3://docs/thumbnails/Q1 2024.png";
                      file_size := PInt 10240;
                      file_type := "pdf";
                      created_at := "2024-04-01T10:00:00.000001";
                      updated_at := "2024-04-01T10:00:00.000002" |} true;
          CRemove "/tmp/Q1 2024.pdf" true] |}.
Proof. vm_compute. reflexivity. Qed.

Example run_on_a_thumbnail :
  result (lambda_handler Sample.no_environ (Sample.env "id-1")
                         Sample.thumbnail_event Sample.world)
  = Ok (PDict [("statusCode", PInt 200);
               ("body", PStr "Skipped non-PDF or thumbnail")]).
Proof. reflexivity. Qed.

(** * The claims *)



(** C2.  Whenever the handler calls [put_object], the event is a
    notification naming a source bucket and a key [raw]; the object key is
    the prefix, then the base name of the decoded key without its extension
    ([os.path.splitext]), then [".png"]; the bucket is [TARGET_BUCKET_NAME]
    when that is set (to a non-empty name) and the source bucket otherwise;
    the content type is ["image/png"]; and when the call went through the
    store holds the object there after the run. *)
Theorem thumbnail_destination (environ : gmap string string) (env : Env)
    (event : pyval) (w : World)
    (bucket key : string) (obj : S3Object) (ok : bool) :
  CPutObject bucket key obj ok ∈ calls (lambda_handler environ env event w) →
  ∃ src raw size,
    notification event (PStr src) raw size ∧
    key = THUMBNAIL_PREFIX environ +:+
          fst (OsPath.splitext (OsPath.basename (Urllib.unquote_plus raw))) +:+
          ".png" ∧
    bucket = match environ !! "TARGET_BUCKET_NAME" with
             | Some b => if String.eqb b "" then src else b
             | None => src
             end ∧
    ContentType obj = "image/png" ∧
    (ok = true →
     s3 (after (lambda_handler environ env event w)) !! (bucket, key) = Some obj).
Proof.
  run.
  all: intros H; try no_such_call H.
  all: call_cases H.
  all: simplify_eq/=.
  all: match goal with
       | Hp : parse_event _ = Ok _, Hs : Py.as_str _ = Some _ |- _ =>
           apply as_str_Some in Hs as ->;
           apply parse_event_inv in Hp as (raw & Hn & ->)
       end.
  all: do 3 eexists; split; [exact Hn|].
  all: repeat split; try done; try (intros _; by rewrite lookup_insert_eq).
  all: unfold target_bucket_of, TARGET_BUCKET_NAME.
  all: match goal with H : _ !! "TARGET_BUCKET_NAME" = _ |- _ => rewrite H end.
  all: by repeat match goal with H : String.eqb _ _ = _ |- _ => rewrite H end.
Qed.

Lemma sample_put_object :
  CPutObject "docs" "thumbnails/Q1 2024.png"
             {| Body := "PNG"; ContentType := "image/png" |} true
  ∈ calls (lambda_handler Sample.no_environ (Sample.env "id-1") Sample.event
                          Sample.world).
Proof. vm_compute. find_call. Defined.

Lemma thumbnail_destination_witness :
  CPutObject "docs" "thumbnails/Q1 2024.png"
             {| Body := "PNG"; ContentType := "image/png" |} true
  ∈ calls (lambda_handler Sample.no_environ (Sample.env "id-1") Sample.event
                          Sample.world)
  ∧ ∃ src raw size,
      notification Sample.event (PStr src) raw size ∧
      "thumbnails/Q1 2024.png" =
        THUMBNAIL_PREFIX Sample.no_environ +:+
        fst (OsPath.splitext (OsPath.basename (Urllib.unquote_plus raw))) +:+
        ".png" ∧
      "docs" = match Sample.no_environ !! "TARGET_BUCKET_NAME" with
               | Some b => if String.eqb b "" then src else b
               | None => src
               end ∧
      ContentType {| Body := "PNG"; ContentType := "image/png" |} = "image/png" ∧
      (true = true →
       s3 (after (lambda_handler Sample.no_environ (Sample.env "id-1")
                                 Sample.event Sample.world))
         !! ("docs", "thumbnails/Q1 2024.png")
       = Some {| Body := "PNG"; ContentType := "image/png" |}).
Proof.
  exact (conj sample_put_object
           (thumbnail_destination Sample.no_environ (Sample.env "id-1")
              Sample.event Sample.world "docs" "thumbnails/Q1 2024.png"
              {| Body := "PNG"; ContentType := "image/png" |} true
              sample_put_object)).
Defined.

(** C3, as stated, fails when the deletion of the workspace file fails: the
    stored document has zero pages, yet the run does not return the 400
    result (it raises) and the file is still there. *)
Lemma empty_document_deletion_fails :
  s3 Sample.world !! ("docs", "reports/Q1 2024.pdf") = Some Sample.pdf
  ∧ fitz_open Sample.env_no_pages_stuck (Body Sample.pdf) = Ok 0
  ∧ result (lambda_handler Sample.no_environ Sample.env_no_pages_stuck
                           Sample.event Sample.world)
    = Raise (Py.UnboundLocalError "e")
  ∧ fs (after (lambda_handler Sample.no_environ Sample.env_no_pages_stuck
                              Sample.event Sample.world))
      !! "/tmp/Q1 2024.pdf"
    = Some "%PDF-1.7".
Proof. by vm_compute. Qed.

(** C3, amended.  For a run that the classifier accepts and that fetches a
    document with zero pages: no thumbnail is published and no metadata
    record is written (the store and the table are unchanged), whatever the
    deletion does; and when the deletion of the workspace file does not
    fail, the handler returns [{statusCode: 400, body: "PDF has no pages."}]
    and the workspace file does not exist after the run. *)
Theorem empty_document (environ : gmap string string) (env : Env)
    (event : pyval) (w : World)
    (src raw : string) (size : pyval) (doc : S3Object) :
  should_process_event environ event = Ok true →
  notification event (PStr src) raw size →
  s3_get_fault env = None →
  s3 w !! (src, Urllib.unquote_plus raw) = Some doc →
  fitz_open env (Body doc) = Ok 0 →
  (∀ b k o ok, CPutObject b k o ok ∉ calls (lambda_handler environ env event w))
  ∧ (∀ item ok, CPutItem item ok ∉ calls (lambda_handler environ env event w))
  ∧ s3 (after (lambda_handler environ env event w)) = s3 w
  ∧ table (after (lambda_handler environ env event w)) = table w
  ∧ (os_remove_fault env 0%nat = None →
     result (lambda_handler environ env event w) =
       Ok (PDict [("statusCode", PInt 400); ("body", PStr "PDF has no pages.")])
     ∧ fs (after (lambda_handler environ env event w))
         !! ("/tmp/" +:+ OsPath.basename (Urllib.unquote_plus raw)) = None).
Proof.
  intros Hgo Hn Hget Hdoc Hpages.
  apply parse_event_notification in Hn.
  unfold_run. rewrite Hgo, Hn. simpl. rewrite Hget, Hdoc. simpl.
  rewrite lookup_insert_eq, Hpages. simpl.
  repeat run_step; simpl.
  all: repeat split; try done.
  all: try (intros ? ? ? ? H; no_such_call H).
  all: try (intros ? ? H; no_such_call H).
  by rewrite lookup_delete_eq.
Qed.

Lemma empty_document_witness :
  should_process_event Sample.no_environ Sample.event = Ok true
  ∧ notification Sample.event (PStr "docs") "reports/Q1+2024.pdf" (PInt 10240)
  ∧ s3_get_fault Sample.env_no_pages = None
  ∧ s3 Sample.world !! ("docs", Urllib.unquote_plus "reports/Q1+2024.pdf")
    = Some Sample.pdf
  ∧ fitz_open Sample.env_no_pages (Body Sample.pdf) = Ok 0
  ∧ (∀ b k o ok,
       CPutObject b k o ok
       ∉ calls (lambda_handler Sample.no_environ Sample.env_no_pages
                               Sample.event Sample.world))
  ∧ (∀ item ok,
       CPutItem item ok
       ∉ calls (lambda_handler Sample.no_environ Sample.env_no_pages
                               Sample.event Sample.world))
  ∧ s3 (after (lambda_handler Sample.no_environ Sample.env_no_pages
                              Sample.event Sample.world)) = s3 Sample.world
  ∧ table (after (lambda_handler Sample.no_environ Sample.env_no_pages
                                 Sample.event Sample.world)) = table Sample.world
  ∧ (os_remove_fault Sample.env_no_pages 0%nat = None →
     result (lambda_handler Sample.no_environ Sample.env_no_pages
                            Sample.event Sample.world) =
       Ok (PDict [("statusCode", PInt 400); ("body", PStr "PDF has no pages.")])
     ∧ fs (after (lambda_handler Sample.no_environ Sample.env_no_pages
                                 Sample.event Sample.world))
         !! ("/tmp/" +:+ OsPath.basename (Urllib.unquote_plus "reports/Q1+2024.pdf"))
       = None).
Proof.
  assert (Hgo : should_process_event Sample.no_environ Sample.event = Ok true)
    by (vm_compute; reflexivity).
  assert (Hdoc : s3 Sample.world
                   !! ("docs", Urllib.unquote_plus "reports/Q1+2024.pdf")
                 = Some Sample.pdf) by (vm_compute; reflexivity).
  exact (conj Hgo (conj sample_event_notification (conj eq_refl (conj Hdoc
           (conj eq_refl
              (empty_document Sample.no_environ Sample.env_no_pages
                 Sample.event Sample.world "docs" "reports/Q1+2024.pdf"
                 (PInt 10240) Sample.pdf Hgo sample_event_notification
                 eq_refl Hdoc eq_refl)))))).
Defined.

(** C4.  In every run: a [put_item] call comes only after a [put_object]
    call that went through; if no [put_object] went through, the table is
    as it was before the run; and a record that was written names, as its
    thumbnail, an object the store holds after the run. *)
Theorem record_after_publish (environ : gmap string string) (env : Env)
    (event : pyval) (w : World) :
  (∀ before item ok later,
     calls (lambda_handler environ env event w) = before ++ CPutItem item ok :: later →
     ∃ b k o, CPutObject b k o true ∈ before)
  ∧ ((∀ b k o, CPutObject b k o true ∉ calls (lambda_handler environ env event w)) →
     table (after (lambda_handler environ env event w)) = table w)
  ∧ (∀ item, CPutItem item true ∈ calls (lambda_handler environ env event w) →
     ∃ b k o, thumbnail_path item = "s3://" +:+ b +:+ "/" +:+ k ∧
              s3 (after (lambda_handler environ env event w)) !! (b, k) = Some o).
Proof.
  run.
  all: split; [|split].
  all: try (intros before item ok later Hh;
            by destruct (recorded_after_published_sound before false _ item ok later
                           Hh eq_refl)).
  all: try (intros Hnone; first [ done | exfalso; eapply Hnone; find_call ]).
  all: intros item H; try no_such_call H.
  all: call_cases H.
  all: simplify_eq/=; do 3 eexists; split; [done|]; by rewrite lookup_insert_eq.
Qed.

(** X13.  What holds of the cleanup when no deletion fails: a run that
    downloaded the document deletes the workspace file exactly once, and
    the file does not exist afterwards. *)
Lemma workspace_deleted_once environ env event w bucket key path :
  (∀ n, os_remove_fault env n = None) →
  CDownload bucket key path true ∈ calls (lambda_handler environ env event w) →
  List.filter is_remove (calls (lambda_handler environ env event w))
    = [CRemove path true]
  ∧ fs (after (lambda_handler environ env event w)) !! path = None.
Proof.
  intros Hrm. run.
  all: intros H; try no_such_call H.
  all: call_cases H.
  all: simplify_eq/=.
  all: try match goal with
           | Hf : os_remove_fault _ _ = Some _ |- _ =>
               rewrite Hrm in Hf; discriminate Hf
           end.
  all: split; [reflexivity | apply lookup_delete_eq].
Qed.

(** C5, on the code.  The same event in three environments.  When nothing
    fails the handler returns the success result.  When the deletion after
    the metadata record fails once, the thumbnail is published and the
    record written, yet the handler returns a 500 result.  When the
    deletion fails each time, the handler raises [UnboundLocalError] and
    returns nothing; the workspace file is still there. *)
Lemma deletion_failure_changes_outcome :
  result (lambda_handler Sample.no_environ (Sample.env "id-1") Sample.event
                         Sample.world)
  = Ok (PDict [("statusCode", PInt 200);
               ("body", PDict [("message", PStr "Successfully processed PDF");
                               ("file_id", PStr "id-1");
                               ("thumbnail_path", PStr "thumbnails/Q1 2024.png")])])
  ∧ result (lambda_handler Sample.no_environ Sample.env_stuck_once Sample.event
                           Sample.world)
    = Ok (PDict [("statusCode", PInt 500);
                 ("body", PStr "[Errno 13] Permission denied: '/tmp/Q1 2024.pdf'")])
  ∧ result (lambda_handler Sample.no_environ Sample.env_stuck Sample.event
                           Sample.world)
    = Raise (Exn "UnboundLocalError"
               "cannot access local variable 'e' where it is not associated with a value")
  ∧ is_Some (s3 (after (lambda_handler Sample.no_environ Sample.env_stuck
                                       Sample.event Sample.world))
               !! ("docs", "thumbnails/Q1 2024.png"))
  ∧ is_Some (table (after (lambda_handler Sample.no_environ Sample.env_stuck
                                          Sample.event Sample.world))
               !! "id-1")
  ∧ is_Some (fs (after (lambda_handler Sample.no_environ Sample.env_stuck
                                       Sample.event Sample.world))
               !! "/tmp/Q1 2024.pdf")
  ∧ List.filter is_remove
      (calls (lambda_handler Sample.no_environ Sample.env_stuck Sample.event
                             Sample.world))
    = [CRemove "/tmp/Q1 2024.pdf" false; CRemove "/tmp/Q1 2024.pdf" false].
Proof. vm_compute. repeat split; eauto. Qed.








(** ** Only the first record counts *)

Lemma should_process_first_record environ d r rest :
  Py.dict_get "Records" d = Some (PList (r :: rest)) →
  should_process_event environ (PDict d) =
  should_process_event environ (records_event [r]).
Proof.
  intros Hr. unfold should_process_event, records_event.
  rewrite !contains_records, Hr.
  cbn [Py.dict_get String.eqb Ascii.eqb Bool.eqb and_then].
  cbn [Py.getpath]. simpl Py.getitem. rewrite Hr. reflexivity.
Qed.

Lemma parse_first_record d r rest :
  Py.dict_get "Records" d = Some (PList (r :: rest)) →
  parse_event (PDict d) = parse_event (records_event [r]).
Proof.
  intros Hr. unfold parse_event, records_event.
  rewrite !contains_records, Hr.
  cbn [Py.dict_get String.eqb Ascii.eqb Bool.eqb and_then negb].
  rewrite (first_record d r rest Hr).
  rewrite (first_record [("Records", PList [r])] r []) by reflexivity.
  reflexivity.
Qed.

(** The handler looks at the event only through the classifier, through
    its own parsing, and to print it. *)
Lemma same_reading_same_run environ env event event' w :
  should_process_event environ event = should_process_event environ event' →
  parse_event event = parse_event event' →
  result (lambda_handler environ env event w) =
    result (lambda_handler environ env event' w)
  ∧ after (lambda_handler environ env event w) =
    after (lambda_handler environ env event' w)
  ∧ ∃ later,
      calls (lambda_handler environ env event w) =
        CPrint [PStr "Received event:"; event] :: later ∧
      calls (lambda_handler environ env event' w) =
        CPrint [PStr "Received event:"; event'] :: later.
Proof.
  intros Hgo Hparse.
  remember (lambda_handler environ env event w) as R1 eqn:HR1.
  remember (lambda_handler environ env event' w) as R2 eqn:HR2.
  revert HR1 HR2. unfold_run. rewrite Hgo, Hparse.
  repeat run_step; simpl.
  all: intros -> ->; simpl; repeat split; eauto.
Qed.

(** C10.  An event whose [Records] list starts with [r] is handled as the
    event [{Records: [r]}] is: the classifier and the handler's parsing
    give the same answers, and the two runs have the same result, leave
    the same world, and make the same calls after the first [print] of
    the event itself.  So further records, and a [detail] entry next to
    [Records], have no effect. *)
Theorem first_record_only (environ : gmap string string) (env : Env)
    (d : list (string * pyval)) (r : pyval) (rest : list pyval) (w : World) :
  Py.dict_get "Records" d = Some (PList (r :: rest)) →
  should_process_event environ (PDict d) =
    should_process_event environ (records_event [r])
  ∧ parse_event (PDict d) = parse_event (records_event [r])
  ∧ result (lambda_handler environ env (PDict d) w) =
    result (lambda_handler environ env (records_event [r]) w)
  ∧ after (lambda_handler environ env (PDict d) w) =
    after (lambda_handler environ env (records_event [r]) w)
  ∧ ∃ later,
      calls (lambda_handler environ env (PDict d) w) =
        CPrint [PStr "Received event:"; PDict d] :: later ∧
      calls (lambda_handler environ env (records_event [r]) w) =
        CPrint [PStr "Received event:"; records_event [r]] :: later.
Proof.
  intros Hr.
  pose proof (should_process_first_record environ d r rest Hr) as Hgo.
  pose proof (parse_first_record d r rest Hr) as Hparse.
  split; [done|]. split; [done|].
  by apply same_reading_same_run.
Qed.

Lemma first_record_only_witness :
  Py.dict_get "Records" Sample.batch
  = Some (PList [Sample.first_record; s3_record "docs" "b.pdf" 7])
  ∧ should_process_event Sample.no_environ (PDict Sample.batch) =
      should_process_event Sample.no_environ (records_event [Sample.first_record])
  ∧ parse_event (PDict Sample.batch) =
      parse_event (records_event [Sample.first_record])
  ∧ result (lambda_handler Sample.no_environ (Sample.env "id-1")
                           (PDict Sample.batch) Sample.world) =
    result (lambda_handler Sample.no_environ (Sample.env "id-1")
                           (records_event [Sample.first_record]) Sample.world)
  ∧ after (lambda_handler Sample.no_environ (Sample.env "id-1")
                          (PDict Sample.batch) Sample.world) =
    after (lambda_handler Sample.no_environ (Sample.env "id-1")
                          (records_event [Sample.first_record]) Sample.world)
  ∧ ∃ later,
      calls (lambda_handler Sample.no_environ (Sample.env "id-1")
                            (PDict Sample.batch) Sample.world) =
        CPrint [PStr "Received event:"; PDict Sample.batch] :: later ∧
      calls (lambda_handler Sample.no_environ (Sample.env "id-1")
                            (records_event [Sample.first_record]) Sample.world) =
        CPrint [PStr "Received event:"; records_event [Sample.first_record]]
        :: later.
Proof.
  exact (conj eq_refl
           (first_record_only Sample.no_environ (Sample.env "id-1")
              Sample.batch Sample.first_record [s3_record "docs" "b.pdf" 7]
              Sample.world eq_refl)).
Defined.

(** * Further properties *)

(** ** More on strings *)

Lemma lower_app s t : Str.lower (s +:+ t) = Str.lower s +:+ Str.lower t.
Proof.
  induction s as [|c s IH]; [reflexivity|].
  rewrite app_cons. simpl. by rewrite app_cons, IH.
Qed.

Lemma app_assoc_str s t u : (s +:+ t) +:+ u = s +:+ t +:+ u.
Proof.
  induction s as [|c s IH]; [reflexivity|]. by rewrite !app_cons, IH.
Qed.

(** Two different suffixes of one length: a string ends with at most one. *)
Lemma endswith_exclusive s p q :
  Str.len p = Str.len q → p ≠ q →
  Str.endswith s p = true → Str.endswith s q = false.
Proof.
  unfold Str.endswith. intros Hlen Hne. rewrite <- Hlen.
  rewrite andb_true_iff, String.eqb_eq. intros [-> Hp]. simpl.
  apply String.eqb_neq. congruence.
Qed.

(** No occurrence of [c] in [s], said with [rfind]. *)
Lemma rfind_cases c s :
  (∀ i f, Str.rfind_from i c s f = f)
  ∨ (∃ a b, s = a +:+ String c b ∧
            (∀ i f, Str.rfind_from i c b f = f) ∧
            ∀ i f, Str.rfind_from i c s f = i + Z.of_nat (Str.len a)).
Proof.
  induction s as [|d r IH].
  - left. reflexivity.
  - destruct IH as [Hno|(a & b & -> & Hb & Ha)].
    + destruct (Ascii.eqb d c) eqn:Hd.
      * apply Ascii.eqb_eq in Hd as ->. right. exists "", r.
        split; [reflexivity|]. split; [done|]. intros i f. simpl.
        rewrite Hno, Ascii.eqb_refl. unfold Str.len. simpl. lia.
      * left. intros i f. simpl. by rewrite Hno, Hd.
    + right. exists (String d a), b. split; [by rewrite app_cons|].
      split; [done|]. intros i f. simpl. rewrite Ha.
      unfold Str.len. simpl. lia.
Qed.

Lemma rfind_absent c s :
  Str.rfind s c = -1 → ∀ i f, Str.rfind_from i c s f = f.
Proof.
  intros H. destruct (rfind_cases c s) as [Hno|(a & b & _ & _ & Ha)]; [done|].
  unfold Str.rfind in H. rewrite Ha in H. lia.
Qed.

Lemma rfind_last c a b i f :
  Str.rfind b c = -1 →
  Str.rfind_from i c (a +:+ String c b) f = i + Z.of_nat (Str.len a).
Proof.
  intros Hb. revert i f. induction a as [|d a IH]; intros i f.
  - change ("" +:+ String c b) with (String c b). simpl.
    rewrite (rfind_absent _ _ Hb), Ascii.eqb_refl. unfold Str.len. simpl. lia.
  - rewrite app_cons. simpl. rewrite IH. unfold Str.len. simpl. lia.
Qed.

Lemma drop_app_cons a c b :
  Str.drop (Z.to_nat (Z.of_nat (Str.len a) + 1)) (a +:+ String c b) = b.
Proof.
  replace (Z.to_nat (Z.of_nat (Str.len a) + 1)) with (S (Str.len a)) by lia.
  induction a as [|d a IH]; [reflexivity|]. rewrite app_cons. exact IH.
Qed.

(** [basename]: the whole path when it has no ["/"], else what follows
    the last one. *)
Lemma basename_cases p :
  (Str.rfind p "/" = -1 ∧ OsPath.basename p = p)
  ∨ (∃ a b, p = a +:+ String "/" b ∧ Str.rfind b "/" = -1 ∧
            OsPath.basename p = b).
Proof.
  unfold OsPath.basename, Str.rfind.
  destruct (rfind_cases "/" p) as [Hno|(a & b & -> & Hb & Ha)].
  - left. rewrite Hno. done.
  - right. exists a, b. split; [done|]. split; [apply Hb|].
    rewrite Ha. apply drop_app_cons.
Qed.

Lemma basename_no_slash p : Str.rfind (OsPath.basename p) "/" = -1.
Proof.
  destruct (basename_cases p) as [[H ->]|(a & b & -> & Hb & ->)]; done.
Qed.

Lemma basename_in_folder d name :
  Str.rfind name "/" = -1 →
  OsPath.basename (d +:+ String "/" name) = name.
Proof.
  intros Hn. unfold OsPath.basename, Str.rfind.
  rewrite (rfind_last _ _ _ _ _ Hn). apply drop_app_cons.
Qed.

Lemma basename_is_suffix p : ∃ pre, p = pre +:+ OsPath.basename p.
Proof.
  destruct (basename_cases p) as [[H ->]|(a & b & -> & Hb & ->)].
  - by exists "".
  - exists (a +:+ "/"). by rewrite app_assoc_str.
Qed.

Lemma rfind_take c n s : Str.rfind s c = -1 → Str.rfind (Str.take n s) c = -1.
Proof.
  intros H. pose proof (rfind_absent _ _ H) as Hs. clear H.
  unfold Str.rfind. generalize 0 at 1. generalize (-1).
  revert s Hs. induction n as [|n IH]; intros [|d s] Hs f i; simpl; try done.
  assert (Hd : Ascii.eqb d c = false).
  { destruct (Ascii.eqb d c) eqn:Hd; [|done].
    pose proof (Hs 0 (-1)) as H0. simpl in H0. rewrite Hd in H0.
    destruct (rfind_cases c s) as [Hno|(a & b & _ & _ & Ha)].
    - rewrite Hno in H0. lia.
    - rewrite Ha in H0. lia. }
  rewrite Hd. apply IH. intros i' f'.
  pose proof (Hs (i' - 1) f') as H1. simpl in H1. rewrite Hd in H1.
  by replace (i' - 1 + 1) with i' in H1 by lia.
Qed.

Lemma splitext_stem_no_slash p :
  Str.rfind p "/" = -1 → Str.rfind (fst (OsPath.splitext p)) "/" = -1.
Proof.
  intros H. unfold OsPath.splitext. cbv zeta. case_match; cbn [fst]; [|done].
  by apply rfind_take.
Qed.

(** ** Runs that end at the classifier *)

Lemma rejected_run environ env event w :
  should_process_event environ event = Ok false →
  lambda_handler environ env event w =
  {| result := Ok skipped; after := w;
     calls := [CPrint [PStr "Received event:"; event];
               CPrint [PStr "Skipping event - not a PDF upload or is a thumbnail"]] |}.
Proof.
  intros Hno. unfold lambda_handler, handler, bind, lift, print, ret.
  rewrite Hno. by destruct w.
Qed.

Lemma classifier_error_run environ env event w e :
  should_process_event environ event = Raise e →
  lambda_handler environ env event w =
  {| result := Raise e; after := w;
     calls := [CPrint [PStr "Received event:"; event]] |}.
Proof.
  intros He. unfold lambda_handler, handler, bind, lift, print, ret.
  rewrite He. by destruct w.
Qed.

Lemma derived_key_not_a_document environ source_key :
  Str.endswith (Str.lower (thumbnail_key_of environ source_key)) ".pdf" = false.
Proof.
  unfold thumbnail_key_of. rewrite <- app_assoc_str, lower_app.
  apply (endswith_exclusive _ ".png" ".pdf"); [done|done|].
  apply endswith_iff. eexists. reflexivity.
Qed.

(** X1.  The handler does not react to its own output.  An event whose key
    decodes to a key the handler derives for a thumbnail (under any
    configuration) is rejected by the classifier, for it ends with [".png"];
    the handler returns the skip result and changes nothing. *)
Theorem thumbnails_are_skipped (environ environ' : gmap string string)
    (env : Env) (event : pyval) (raw source_key : string) (w : World) :
  carries_key event raw →
  Urllib.unquote_plus raw = thumbnail_key_of environ' source_key →
  should_process_event environ event = Ok false
  ∧ lambda_handler environ env event w =
    {| result := Ok (PDict [("statusCode", PInt 200);
                            ("body", PStr "Skipped non-PDF or thumbnail")]);
       after := w;
       calls := [CPrint [PStr "Received event:"; event];
                 CPrint [PStr "Skipping event - not a PDF upload or is a thumbnail"]] |}.
Proof.
  intros Hk Hd.
  assert (Hno : should_process_event environ event = Ok false).
  { rewrite (classify_key environ event raw Hk), Hd.
    by rewrite derived_key_not_a_document. }
  split; [done|]. by apply rejected_run.
Qed.

(** X2.  With [THUMBNAIL_PREFIX] set to the empty string every key starts
    with the prefix, so every notification is skipped: the handler never
    processes a document. *)
Theorem empty_prefix_skips_everything (environ : gmap string string)
    (env : Env) (event : pyval) (raw : string) (w : World) :
  environ !! "THUMBNAIL_PREFIX" = Some "" →
  carries_key event raw →
  lambda_handler environ env event w =
  {| result := Ok (PDict [("statusCode", PInt 200);
                          ("body", PStr "Skipped non-PDF or thumbnail")]);
     after := w;
     calls := [CPrint [PStr "Received event:"; event];
               CPrint [PStr "Skipping event - not a PDF upload or is a thumbnail"]] |}.
Proof.
  intros Hp Hk. apply rejected_run.
  rewrite (classify_key environ event raw Hk).
  unfold THUMBNAIL_PREFIX. rewrite Hp. simpl.
  by rewrite andb_false_r.
Qed.

(** X3.  An event whose [Records] is the empty list makes the classifier
    raise [IndexError], whatever else the event holds (a well-formed
    [detail] is not used): the handler raises, returns no result and
    changes nothing. *)
Theorem empty_records_raise (environ : gmap string string) (env : Env)
    (d : list (string * pyval)) (w : World) :
  Py.dict_get "Records" d = Some (PList []) →
  lambda_handler environ env (PDict d) w =
  {| result := Raise (Exn "IndexError" "list index out of range");
     after := w;
     calls := [CPrint [PStr "Received event:"; PDict d]] |}.
Proof.
  intros Hr. apply classifier_error_run.
  unfold should_process_event. rewrite contains_records, Hr.
  cbn [and_then Py.getpath]. simpl Py.getitem. by rewrite Hr.
Qed.

(** X4.  An event the classifier accepts but whose bucket or size cannot be
    read fails inside the [try]: the handler returns
    [{statusCode: 500, body: str(e)}] for the lookup error [e], makes no
    call but two [print]s, attempts no deletion ([download_path] is not
    bound yet) and changes nothing. *)
Theorem unreadable_notification_is_a_500 (environ : gmap string string)
    (env : Env) (event : pyval) (raw : string) (w : World) :
  should_process_event environ event = Ok true →
  carries_key event raw →
  (∀ bucket size, ¬ notification event bucket raw size) →
  ∃ e,
    parse_event event = Raise e ∧
    lambda_handler environ env event w =
    {| result := Ok (PDict [("statusCode", PInt 500);
                            ("body", PStr (exn_str e))]);
       after := w;
       calls := [CPrint [PStr "Received event:"; event];
                 CPrint [PStr ("Error: " +:+ exn_str e)]] |}.
Proof.
  intros Hgo Hk Hnot.
  destruct (parse_event event) as [[[b k] s]|e] eqn:Hp.
  - apply parse_event_inv in Hp as (raw' & Hn & ->).
    rewrite (carries_key_functional _ _ _
               (notification_carries_key _ _ _ _ Hn) Hk) in Hn.
    by destruct (Hnot _ _ Hn).
  - exists e. split; [done|].
    rewrite (lambda_handler_accepted environ env event w Hgo).
    unfold try_except, try_body, bind, lift. rewrite Hp.
    unfold except_handler, bind, print, local_download_path, ret. simpl.
    by destruct w.
Qed.

(** X5.  Two notifications, of either shape, that name the same bucket and
    size and whose keys decode to the same key are handled alike: same
    result, same world afterwards, same calls after the first [print]. *)
Theorem shapes_are_handled_alike (environ : gmap string string) (env : Env)
    (event1 event2 bucket : pyval) (raw1 raw2 : string) (size : pyval)
    (w : World) :
  notification event1 bucket raw1 size →
  notification event2 bucket raw2 size →
  Urllib.unquote_plus raw1 = Urllib.unquote_plus raw2 →
  result (lambda_handler environ env event1 w) =
    result (lambda_handler environ env event2 w)
  ∧ after (lambda_handler environ env event1 w) =
    after (lambda_handler environ env event2 w)
  ∧ ∃ later,
      calls (lambda_handler environ env event1 w) =
        CPrint [PStr "Received event:"; event1] :: later ∧
      calls (lambda_handler environ env event2 w) =
        CPrint [PStr "Received event:"; event2] :: later.
Proof.
  intros Hn1 Hn2 Hkey. apply same_reading_same_run.
  - rewrite (classify_key environ event1 raw1)
      by eauto using notification_carries_key.
    rewrite (classify_key environ event2 raw2)
      by eauto using notification_carries_key.
    by rewrite Hkey.
  - rewrite (parse_event_notification _ _ _ _ Hn1),
      (parse_event_notification _ _ _ _ Hn2). by rewrite Hkey.
Qed.


Ltac found_call := solve [find_call].

(** A file differs after the run: it is the one the run downloaded to. *)
Ltac file_changed :=
  let q := fresh "q" in
  let Hq := fresh "Hq" in
  intros q Hq;
  lazymatch goal with
  | |- context [CDownload ?b ?k ?P _] =>
      let Hne := fresh "Hne" in
      destruct (decide (q = P)) as [->|Hne];
      [ first [ exfalso; apply Hq; reflexivity
              | exists b, k; first [ left; found_call | right; found_call ] ]
      | exfalso; apply Hq;
        rewrite ?lookup_delete_ne, ?lookup_insert_ne by done; done ]
  | _ => done
  end.

Ltac object_changed :=
  let qb := fresh "qb" in
  let qk := fresh "qk" in
  let Hq := fresh "Hq" in
  intros qb qk Hq;
  lazymatch goal with
  | |- context [CPutObject ?B ?K ?O true] =>
      let Hne := fresh "Hne" in
      let Heq := fresh "Heq" in
      destruct (decide ((B, K) = (qb, qk))) as [Heq|Hne];
      [ injection Heq as <- <-; exists O; found_call
      | exfalso; apply Hq; by rewrite lookup_insert_ne ]
  | _ => done
  end.

Ltac record_changed :=
  let qi := fresh "qi" in
  let Hq := fresh "Hq" in
  intros qi Hq;
  lazymatch goal with
  | |- context [CPutItem ?I true] =>
      let Hne := fresh "Hne" in
      destruct (decide (file_id I = qi)) as [<-|Hne];
      [ split; [reflexivity|]; exists I; split; [reflexivity|found_call]
      | exfalso; apply Hq; by rewrite lookup_insert_ne ]
  | _ => done
  end.

(** X7.  The handler changes the world only by its calls: a file differs
    after the run only where a download or a deletion went through, an
    object only where a [put_object] went through, a record only under
    the run's own [file_id] where a [put_item] went through. *)
Theorem changes_are_logged (environ : gmap string string) (env : Env)
    (event : pyval) (w : World) :
  (∀ p, fs (after (lambda_handler environ env event w)) !! p ≠ fs w !! p →
        ∃ b k, CDownload b k p true ∈ calls (lambda_handler environ env event w)
               ∨ CRemove p true ∈ calls (lambda_handler environ env event w))
  ∧ (∀ b k, s3 (after (lambda_handler environ env event w)) !! (b, k) ≠ s3 w !! (b, k) →
            ∃ o, CPutObject b k o true ∈ calls (lambda_handler environ env event w))
  ∧ (∀ id, table (after (lambda_handler environ env event w)) !! id ≠ table w !! id →
           id = uuid4 env ∧
           ∃ item, file_id item = id ∧
                   CPutItem item true ∈ calls (lambda_handler environ env event w)).
Proof.
  run.
  all: simpl; split; [file_changed | split; [object_changed | record_changed]].
Qed.

(** The parsed event of a path, said with [notification]. *)
Ltac read_parsed :=
  match goal with
  | Hp : parse_event _ = Ok _, Hs : Py.as_str _ = Some _ |- _ =>
      let raw := fresh "raw" in
      let Hn := fresh "Hn" in
      apply as_str_Some in Hs as ->;
      apply parse_event_inv in Hp as (raw & Hn & ->)
  end.

(** X8.  The handler never writes an object whose key ends with [".pdf"]
    (in any case); in particular the object the event names, in whatever
    bucket, is after the run what it was before. *)
Theorem documents_are_never_written (environ : gmap string string)
    (env : Env) (event : pyval) (w : World) :
  (∀ b k, Str.endswith (Str.lower k) ".pdf" = true →
          s3 (after (lambda_handler environ env event w)) !! (b, k) = s3 w !! (b, k))
  ∧ (∀ raw b, carries_key event raw →
              s3 (after (lambda_handler environ env event w))
                !! (b, Urllib.unquote_plus raw)
              = s3 w !! (b, Urllib.unquote_plus raw)).
Proof.
  assert (Hpdf : ∀ b k, Str.endswith (Str.lower k) ".pdf" = true →
            s3 (after (lambda_handler environ env event w)) !! (b, k) = s3 w !! (b, k)).
  { intros b k. run.
    all: intros Hk; simpl; try done.
    all: apply lookup_insert_ne; intros [= _ <-].
    all: by rewrite derived_key_not_a_document in Hk. }
  split; [exact Hpdf|].
  intros raw b Hk.
  destruct (Str.endswith (Str.lower (Urllib.unquote_plus raw)) ".pdf") eqn:Hend.
  - by apply Hpdf.
  - rewrite rejected_run; [done|].
    by rewrite (classify_key environ event raw Hk), Hend.
Qed.

(** X9.  Every record the handler puts has the run's identifier as
    [file_id], the URI of the source bucket and decoded key as
    [original_file], the URI of the target bucket and derived key as
    [thumbnail_path], the event's size as [file_size], ["pdf"] as
    [file_type], and two successive clock readings as [created_at] and
    [updated_at]. *)
Theorem record_contents (environ : gmap string string) (env : Env)
    (event : pyval) (w : World) (item : Item) (ok : bool) :
  CPutItem item ok ∈ calls (lambda_handler environ env event w) →
  ∃ src raw size,
    notification event (PStr src) raw size ∧
    item = {| file_id := uuid4 env;
              original_file := "s3://" +:+ src +:+ "/" +:+ Urllib.unquote_plus raw;
              thumbnail_path := "s3://" +:+ target_bucket_of environ src +:+ "/" +:+
                                thumbnail_key_of environ (Urllib.unquote_plus raw);
              file_size := size;
              file_type := "pdf";
              created_at := datetime_now env 0;
              updated_at := datetime_now env 1 |}.
Proof.
  run.
  all: intros H; try no_such_call H.
  all: call_cases H.
  all: simplify_eq/=.
  all: read_parsed.
  all: do 3 eexists; split; [eassumption|reflexivity].
Qed.

(** Every call of a history went through. *)
Ltac all_went_through :=
  repeat (apply Forall_cons; split; [reflexivity|]); apply Forall_nil_2.

(** X10.  The success result is returned only when everything was done:
    the classifier accepted, every call went through, the store holds an
    [image/png] object under the returned key, the table holds a record
    under the returned identifier that names that object, and the
    workspace file is gone. *)
Theorem success_means_all_done (environ : gmap string string) (env : Env)
    (event : pyval) (w : World) (id tkey : string) :
  result (lambda_handler environ env event w) =
    Ok (PDict [("statusCode", PInt 200);
               ("body", PDict [("message", PStr "Successfully processed PDF");
                               ("file_id", PStr id);
                               ("thumbnail_path", PStr tkey)])]) →
  ∃ src raw size thumb item,
    notification event (PStr src) raw size ∧
    should_process_event environ event = Ok true ∧
    s3 (after (lambda_handler environ env event w))
      !! (target_bucket_of environ src, tkey) = Some thumb ∧
    ContentType thumb = "image/png" ∧
    table (after (lambda_handler environ env event w)) !! id = Some item ∧
    thumbnail_path item = "s3://" +:+ target_bucket_of environ src +:+ "/" +:+ tkey ∧
    fs (after (lambda_handler environ env event w))
      !! ("/tmp/" +:+ OsPath.basename (Urllib.unquote_plus raw)) = None ∧
    Forall (λ c, match c with
                 | CPrint _ => True
                 | CDownload _ _ _ ok | CPutObject _ _ _ ok
                 | CPutItem _ ok | CRemove _ ok => ok = true
                 end)
           (calls (lambda_handler environ env event w)).
Proof.
  run.
  all: intros H; simplify_eq.
  read_parsed.
  do 5 eexists. split; [eassumption|]. split; [done|].
  split; [apply lookup_insert_eq|]. split; [reflexivity|].
  split; [apply lookup_insert_eq|]. split; [reflexivity|].
  split; [apply lookup_delete_eq|]. all_went_through.
Qed.

(** X11.  When [put_item] fails after the thumbnail was published, the
    thumbnail stays in the store (nothing is rolled back), the table is
    unchanged, [store_metadata] has logged the error, and the handler
    returns the 500 result with the error's message, unless the
    deletion in the [except] handler fails too. *)
Theorem failed_record_leaves_the_thumbnail (environ : gmap string string)
    (env : Env) (event : pyval) (w : World) (e : exn)
    (b k : string) (o : S3Object) :
  ddb_put_fault env = Some e →
  CPutObject b k o true ∈ calls (lambda_handler environ env event w) →
  s3 (after (lambda_handler environ env event w)) !! (b, k) = Some o
  ∧ table (after (lambda_handler environ env event w)) = table w
  ∧ CPrint [PStr ("Error storing metadata: " +:+ exn_str e)]
      ∈ calls (lambda_handler environ env event w)
  ∧ (result (lambda_handler environ env event w) =
       Ok (PDict [("statusCode", PInt 500); ("body", PStr (exn_str e))])
     ∨ result (lambda_handler environ env event w) =
       Raise (Py.UnboundLocalError "e")).
Proof.
  intros He. remember (lambda_handler environ env event w) as R eqn:HR.
  revert HR. unfold_run. rewrite He. repeat run_step; simpl.
  all: intros ->; cbn [result after calls].
  all: intros H; try no_such_call H.
  all: call_cases H.
  all: simplify_eq/=.
  all: split; [apply lookup_insert_eq|].
  all: split; [reflexivity|].
  all: split; [found_call|].
  all: auto.
Qed.

(** X12.  The handler raises in two ways only.  Either the classifier
    raised, before any other call; or the deletion attempted by the
    [except] handler failed, the workspace file is still there, and the
    exception is the [UnboundLocalError] for the name [e]. *)
Theorem how_the_handler_raises (environ : gmap string string) (env : Env)
    (event : pyval) (w : World) (e : exn) :
  result (lambda_handler environ env event w) = Raise e →
  (should_process_event environ event = Raise e ∧
   after (lambda_handler environ env event w) = w ∧
   calls (lambda_handler environ env event w) =
     [CPrint [PStr "Received event:"; event]])
  ∨ (e = Py.UnboundLocalError "e" ∧
     ∃ path n e',
       os_remove_fault env n = Some e' ∧
       CRemove path false ∈ calls (lambda_handler environ env event w) ∧
       CPrint [PStr ("Cleanup error: " +:+ exn_str e')]
         ∈ calls (lambda_handler environ env event w) ∧
       is_Some (fs (after (lambda_handler environ env event w)) !! path)).
Proof.
  run.
  all: intros H; simplify_eq.
  all: first
    [ left; split; [reflexivity|]; split; [by destruct w|reflexivity]
    | right; split; [reflexivity|];
      match goal with
      | Hf : os_remove_fault _ ?n = Some ?e' |- context [CPrint [PStr ("Cleanup error: " +:+ exn_str ?e')]] =>
          match goal with
          | |- context [CRemove ?p false] =>
              exists p, n, e'; split; [exact Hf|];
              split; [found_call|]; split; [found_call|];
              simpl; rewrite ?lookup_insert_eq; eauto
          end
      end ].
Qed.

(** ** Suffixes and extensions *)

Lemma len_lower s : Str.len (Str.lower s) = Str.len s.
Proof. unfold Str.len. induction s as [|c s IH]; simpl; [done|by rewrite IH]. Qed.

Lemma lower_drop n s : Str.lower (Str.drop n s) = Str.drop n (Str.lower s).
Proof. revert s. induction n as [|n IH]; intros [|c s]; simpl; auto. Qed.

Lemma len_drop n s : Str.len (Str.drop n s) = (Str.len s - n)%nat.
Proof.
  unfold Str.len. revert s. induction n as [|n IH]; intros [|c s]; simpl; auto.
Qed.

Lemma take_app_len s t : Str.take (Str.len s) (s +:+ t) = s.
Proof.
  induction s as [|c s IH]; [by destruct t|].
  rewrite app_cons. unfold Str.len in *. simpl. by rewrite IH.
Qed.

Lemma rfind_from_bounds c s i f :
  Str.rfind_from i c s f = f ∨ i <= Str.rfind_from i c s f.
Proof.
  destruct (rfind_cases c s) as [Hno|(a & b & _ & _ & Ha)].
  - left. apply Hno.
  - right. rewrite Ha. lia.
Qed.

Lemma rfind_from_present c a b i f :
  f < i → i <= Str.rfind_from i c (a +:+ String c b) f.
Proof.
  revert i f. induction a as [|d a IH]; intros i f Hf.
  - change ("" +:+ String c b) with (String c b). simpl.
    rewrite Ascii.eqb_refl.
    destruct (rfind_from_bounds c b (i + 1) i) as [-> | ?]; lia.
  - rewrite app_cons. simpl.
    assert (i + 1 <= Str.rfind_from (i + 1) c (a +:+ String c b)
                       (if Ascii.eqb d c then i else f)); [|lia].
    apply IH. destruct (Ascii.eqb d c); lia.
Qed.

Lemma rfind_present c a b : Str.rfind (a +:+ String c b) c ≠ -1.
Proof.
  unfold Str.rfind.
  pose proof (rfind_from_present c a b 0 (-1)). lia.
Qed.

Lemma endswith_cons c s p :
  Str.endswith (String c s) p = true →
  Str.endswith s p = true ∨ p = String c s.
Proof.
  unfold Str.endswith, Str.len. simpl String.length.
  rewrite !andb_true_iff, !Nat.leb_le, !String.eqb_eq. intros [Hle Hd].
  destruct (decide (String.length p <= String.length s)%nat) as [Hs|Hs].
  - left. split; [done|].
    replace (S (String.length s) - String.length p)%nat
      with (S (String.length s - String.length p)) in Hd by lia.
    exact Hd.
  - right. replace (S (String.length s) - String.length p)%nat with O in Hd by lia.
    by simpl in Hd.
Qed.

(** A suffix without [c] of a string lies after the string's last [c]. *)
Lemma endswith_after c x y p :
  Str.rfind p c = -1 →
  Str.endswith (x +:+ String c y) p = true → Str.endswith y p = true.
Proof.
  intros Hp. induction x as [|d x IH].
  - change ("" +:+ String c y) with (String c y).
    intros [H| ->]%endswith_cons; [done|].
    by destruct (rfind_present c "" y).
  - rewrite app_cons. intros [H| ->]%endswith_cons; [by apply IH|].
    by destruct (rfind_present c (String d x) y).
Qed.

Lemma lower_char_is c d :
  (nat_of_ascii d < 97)%nat →
  Str.lower_char c = d → c = d.
Proof.
  unfold Str.lower_char. destruct (Str.is_upper c) eqn:Hc; [|done].
  intros Hd <-. exfalso. revert Hc Hd. unfold Str.is_upper.
  rewrite andb_true_iff, !Nat.leb_le. intros [H1 H2].
  rewrite nat_ascii_embedding by lia. lia.
Qed.

Lemma lower_char_not c d :
  Str.is_upper d = false → Str.lower_char c ≠ d → c ≠ d.
Proof.
  intros Hd Hne ->. apply Hne. unfold Str.lower_char. by rewrite Hd.
Qed.

Lemma basename_of_document key :
  Str.endswith (Str.lower key) ".pdf" = true →
  Str.endswith (Str.lower (OsPath.basename key)) ".pdf" = true.
Proof.
  destruct (basename_cases key) as [[_ ->]|(a & b & -> & _ & ->)]; [done|].
  rewrite lower_app. change (Str.lower (String "/" b)) with (String "/" (Str.lower b)).
  by apply endswith_after.
Qed.

(** A name that ends with [".pdf"] in some case: a stem, a dot, and three
    characters that are not dots. *)
Lemma document_name name :
  Str.endswith (Str.lower name) ".pdf" = true →
  ∃ stem c1 c2 c3,
    name = stem +:+ String "." (String c1 (String c2 (String c3 ""))) ∧
    Str.lower (String c1 (String c2 (String c3 ""))) = "pdf" ∧
    Str.rfind (String c1 (String c2 (String c3 ""))) "." = -1.
Proof.
  unfold Str.endswith. rewrite andb_true_iff, Nat.leb_le, String.eqb_eq.
  rewrite len_lower, <- lower_drop. intros [Hle Hext].
  set (n := (Str.len name - Str.len ".pdf")%nat) in *.
  pose proof (take_drop n name) as Hsplit.
  pose proof (len_drop n name) as Hlen.
  destruct (Str.drop n name) as [|c0 [|c1 [|c2 [|c3 [|c4 r]]]]];
    try discriminate Hext.
  injection Hext as H0 H1 H2 H3.
  apply (lower_char_is _ ".") in H0 as ->; [|by apply Nat.ltb_lt].
  exists (Str.take n name), c1, c2, c3. split; [done|]. split.
  - simpl. by rewrite H1, H2, H3.
  - unfold Str.rfind. simpl.
    assert (c1 ≠ "."%char) by (apply (lower_char_not _ "."); [done|by rewrite H1]).
    assert (c2 ≠ "."%char) by (apply (lower_char_not _ "."); [done|by rewrite H2]).
    assert (c3 ≠ "."%char) by (apply (lower_char_not _ "."); [done|by rewrite H3]).
    by rewrite !(proj2 (Ascii.eqb_neq _ _)).
Qed.

Lemma has_non_dot_app s t :
  OsPath.has_non_dot (Str.len s) (s +:+ t) = OsPath.has_non_dot (Str.len s) s.
Proof.
  induction s as [|c s IH]; [by destruct t|].
  rewrite app_cons. unfold Str.len in *. simpl. by rewrite IH.
Qed.

(** [splitext] on the base name of a document key. *)
Lemma splitext_of_document key :
  Str.endswith (Str.lower key) ".pdf" = true →
  ∃ stem ext,
    OsPath.basename key = stem +:+ ext ∧
    Str.lower ext = ".pdf" ∧
    OsPath.splitext (OsPath.basename key) =
      if OsPath.has_non_dot (Str.len stem) stem then (stem, ext)
      else (stem +:+ ext, "").
Proof.
  intros Hdoc. apply basename_of_document in Hdoc.
  pose proof (basename_no_slash key) as Hslash.
  destruct (document_name _ Hdoc) as (stem & c1 & c2 & c3 & Hname & Hlow & Hdot).
  rewrite Hname in *. clear Hname Hdoc.
  exists stem, (String "." (String c1 (String c2 (String c3 "")))).
  split; [done|]. split.
  { change (Str.lower (String "." ?t)) with (String "."%char (Str.lower t)).
    by rewrite Hlow. }
  unfold OsPath.splitext. cbv zeta. rewrite Hslash.
  unfold Str.rfind at 1. rewrite (rfind_last _ _ _ _ _ Hdot).
  unfold Str.rfind. rewrite (rfind_last _ _ _ _ _ Hdot).
  replace (-1 <? 0 + Z.of_nat (Str.len stem)) with true by (symmetry; apply Z.ltb_lt; lia).
  replace (Z.to_nat (0 + Z.of_nat (Str.len stem) - (-1 + 1))) with (Str.len stem) by lia.
  replace (Z.to_nat (0 + Z.of_nat (Str.len stem))) with (Str.len stem) by lia.
  change (Z.to_nat (-1 + 1)) with O. cbn [Str.drop andb].
  rewrite has_non_dot_app.
  destruct (OsPath.has_non_dot _ _); [|done].
  by rewrite take_app_len, drop_app.
Qed.

(** What is downloaded and what is put, in terms of the event's key; both
    happen only on events the classifier accepts. *)
Lemma calls_use_decoded_key environ env event w raw :
  carries_key event raw →
  (∀ b k p ok,
     CDownload b k p ok ∈ calls (lambda_handler environ env event w) →
     Str.endswith (Str.lower (Urllib.unquote_plus raw)) ".pdf" = true ∧
     k = Urllib.unquote_plus raw ∧
     p = "/tmp/" +:+ OsPath.basename (Urllib.unquote_plus raw))
  ∧ (∀ b k o ok,
       CPutObject b k o ok ∈ calls (lambda_handler environ env event w) →
       Str.endswith (Str.lower (Urllib.unquote_plus raw)) ".pdf" = true ∧
       k = thumbnail_key_of environ (Urllib.unquote_plus raw)).
Proof.
  intros Hk.
  assert (Hparse : ∀ b k s, parse_event event = Ok (b, k, s) →
                            k = Urllib.unquote_plus raw).
  { intros b k s (raw' & Hn & ->)%parse_event_inv.
    by rewrite (carries_key_functional _ _ _ Hk
                  (notification_carries_key _ _ _ _ Hn)). }
  assert (Hgo : should_process_event environ event = Ok true →
                Str.endswith (Str.lower (Urllib.unquote_plus raw)) ".pdf" = true).
  { rewrite (classify_key environ event raw Hk). intros [= H].
    by apply andb_true_iff in H as [? _]. }
  run.
  all: split.
  all: intros ? ? ? ? H; try no_such_call H.
  all: call_cases H.
  all: simplify_eq/=.
  all: rewrite (Hparse _ _ _ eq_refl); repeat split; auto.
Qed.

(** X14.  The workspace file lies directly in [/tmp]: its path is [/tmp/]
    followed by a name without ["/"], the last component of the decoded
    key, ending with [".pdf"] in some case. *)
Theorem workspace_file_is_flat (environ : gmap string string) (env : Env)
    (event : pyval) (raw : string) (w : World)
    (bucket : pyval) (key path : string) (ok : bool) :
  carries_key event raw →
  CDownload bucket key path ok ∈ calls (lambda_handler environ env event w) →
  ∃ name,
    path = "/tmp/" +:+ name ∧
    Str.rfind name "/" = -1 ∧
    Str.endswith (Str.lower name) ".pdf" = true ∧
    ∃ folder, key = folder +:+ name.
Proof.
  intros Hk Hc.
  destruct (calls_use_decoded_key environ env event w raw Hk) as [Hd _].
  destruct (Hd _ _ _ _ Hc) as (Hdoc & -> & ->).
  exists (OsPath.basename (Urllib.unquote_plus raw)).
  split; [done|]. split; [apply basename_no_slash|].
  split; [by apply basename_of_document|]. apply basename_is_suffix.
Qed.

(** X15.  The derived key, spelled out.  The base name of the decoded key
    is a stem followed by an extension that is [".pdf"] in some case; the
    derived key is the prefix, the stem and [".png"], except when the stem
    is empty or made of dots only, where the whole base name is kept.  The
    stem has no ["/"]: thumbnails lie flat under the prefix. *)
Theorem derived_key_strips_the_extension (environ : gmap string string)
    (env : Env) (event : pyval) (raw : string) (w : World)
    (bucket key : string) (obj : S3Object) (ok : bool) :
  carries_key event raw →
  CPutObject bucket key obj ok ∈ calls (lambda_handler environ env event w) →
  ∃ stem ext,
    OsPath.basename (Urllib.unquote_plus raw) = stem +:+ ext ∧
    Str.lower ext = ".pdf" ∧
    Str.rfind stem "/" = -1 ∧
    key = THUMBNAIL_PREFIX environ +:+
          (if OsPath.has_non_dot (Str.len stem) stem then stem else stem +:+ ext)
          +:+ ".png".
Proof.
  intros Hk Hc.
  destruct (calls_use_decoded_key environ env event w raw Hk) as [_ Hp].
  destruct (Hp _ _ _ _ Hc) as (Hdoc & ->).
  destruct (splitext_of_document _ Hdoc) as (stem & ext & Hbase & Hext & Hsplit).
  exists stem, ext. split; [done|]. split; [done|]. split.
  - pose proof (basename_no_slash (Urllib.unquote_plus raw)) as Hs.
    rewrite Hbase in Hs. rewrite <- (take_app_len stem ext).
    by apply rfind_take.
  - unfold thumbnail_key_of. rewrite Hsplit.
    by destruct (OsPath.has_non_dot _ _).
Qed.

(** X16.  Documents of the same name in different folders get the same
    thumbnail key. *)
Theorem same_name_same_thumbnail (environ : gmap string string)
    (env1 env2 : Env) (event1 event2 : pyval) (w1 w2 : World)
    (raw1 raw2 folder1 folder2 name : string)
    (b1 k1 b2 k2 : string) (o1 o2 : S3Object) (ok1 ok2 : bool) :
  carries_key event1 raw1 →
  carries_key event2 raw2 →
  Urllib.unquote_plus raw1 = folder1 +:+ "/" +:+ name →
  Urllib.unquote_plus raw2 = folder2 +:+ "/" +:+ name →
  Str.rfind name "/" = -1 →
  CPutObject b1 k1 o1 ok1 ∈ calls (lambda_handler environ env1 event1 w1) →
  CPutObject b2 k2 o2 ok2 ∈ calls (lambda_handler environ env2 event2 w2) →
  k1 = k2.
Proof.
  intros Hk1 Hk2 Hr1 Hr2 Hname Hc1 Hc2.
  destruct (calls_use_decoded_key environ env1 event1 w1 raw1 Hk1) as [_ Hp1].
  destruct (calls_use_decoded_key environ env2 event2 w2 raw2 Hk2) as [_ Hp2].
  destruct (Hp1 _ _ _ _ Hc1) as (_ & ->).
  destruct (Hp2 _ _ _ _ Hc2) as (_ & ->).
  unfold thumbnail_key_of. rewrite Hr1, Hr2.
  change ("/" +:+ name) with (String "/" name).
  by rewrite !basename_in_folder.
Qed.

(** X17.  When the store fails on the download, nothing is published or
    recorded and the store and the table are unchanged; and when the
    deletion does not fail, the handler returns the 500 result with the
    store's message and no file is left at the workspace path, not even
    one that was there before the run. *)
Theorem failed_download_changes_nothing (environ : gmap string string)
    (env : Env) (event : pyval) (w : World)
    (src raw : string) (size : pyval) (e : exn) :
  should_process_event environ event = Ok true →
  notification event (PStr src) raw size →
  s3_get_fault env = Some e →
  s3 (after (lambda_handler environ env event w)) = s3 w
  ∧ table (after (lambda_handler environ env event w)) = table w
  ∧ CDownload (PStr src) (Urllib.unquote_plus raw)
              ("/tmp/" +:+ OsPath.basename (Urllib.unquote_plus raw)) false
      ∈ calls (lambda_handler environ env event w)
  ∧ (∀ b k o ok, CPutObject b k o ok ∉ calls (lambda_handler environ env event w))
  ∧ (∀ item ok, CPutItem item ok ∉ calls (lambda_handler environ env event w))
  ∧ (os_remove_fault env 0%nat = None →
     result (lambda_handler environ env event w) =
       Ok (PDict [("statusCode", PInt 500); ("body", PStr (exn_str e))])
     ∧ fs (after (lambda_handler environ env event w))
         !! ("/tmp/" +:+ OsPath.basename (Urllib.unquote_plus raw)) = None).
Proof.
  intros Hgo Hn Hget. apply parse_event_notification in Hn.
  remember (lambda_handler environ env event w) as R eqn:HR. revert HR.
  unfold_run. rewrite Hgo, Hn. simpl. rewrite Hget.
  repeat run_step; simpl.
  all: intros ->; cbn [result after calls]; simpl.
  all: repeat split; try done; try found_call.
  all: try (intros ? ? ? ? H; no_such_call H).
  all: try (intros ? ? H; no_such_call H).
  all: try by rewrite ?lookup_delete_eq.
  match goal with
  | Hb : bool_decide _ = false |- _ =>
      apply bool_decide_eq_false in Hb; by apply eq_None_not_Some
  end.
Qed.

Lemma rfind_absent_cons c d r :
  (∀ i f, Str.rfind_from i c (String d r) f = f) →
  Ascii.eqb d c = false ∧ ∀ i f, Str.rfind_from i c r f = f.
Proof.
  intros Hs.
  assert (Hd : Ascii.eqb d c = false).
  { destruct (Ascii.eqb d c) eqn:Hd; [|done].
    pose proof (Hs 0 (-1)) as H0. simpl in H0. rewrite Hd in H0.
    destruct (rfind_from_bounds c r (0 + 1) 0); lia. }
  split; [done|]. intros i f.
  pose proof (Hs (i - 1) f) as H1. simpl in H1. rewrite Hd in H1.
  by replace (i - 1 + 1) with i in H1 by lia.
Qed.

Lemma split_without_separator c s :
  Str.rfind s c = -1 → Str.split c s = [s].
Proof.
  intros H. pose proof (rfind_absent _ _ H) as Hs. clear H.
  induction s as [|d r IH]; [done|].
  apply rfind_absent_cons in Hs as [Hd Hr].
  simpl. by rewrite Hd, (IH Hr).
Qed.

(** X18.  [THUMBNAIL_SIZE] must contain a lowercase ["x"]: without one,
    line 92 raises [ValueError]. *)
Theorem thumbnail_size_needs_the_separator (environ : gmap string string) :
  Str.rfind (THUMBNAIL_SIZE environ) "x" = -1 →
  ∃ msg, thumbnail_size environ = Raise (Exn "ValueError" msg).
Proof.
  intros H. unfold thumbnail_size. rewrite (split_without_separator _ _ H).
  unfold Builtins.unpack2_int, Builtins.int.
  destruct (Builtins.int_literal _); simpl; eauto.
Qed.

(** ** The further properties at sample inputs *)

Lemma derived_event_key : carries_key Cases.derived_event "thumbnails/Q1+2024.png".
Proof.
  exists (s3_node "docs" "thumbnails/Q1+2024.png" 99). split.
  - by apply payload_detail.
  - done.
Defined.

Lemma no_bucket_event_key : carries_key Cases.no_bucket_event "a.pdf".
Proof.
  eexists. split.
  - by apply payload_detail.
  - done.
Defined.

Lemma no_bucket_event_unreadable bucket size :
  ¬ notification Cases.no_bucket_event bucket "a.pdf" size.
Proof.
  intros (n & Hp & Hb & _). inversion Hp; simplify_eq/=.
Defined.

Lemma event_in_a_key : carries_key Cases.event_in_a "a/x.pdf".
Proof.
  exists (s3_node "docs" "a/x.pdf" 8). split; [by apply payload_detail|done].
Defined.

Lemma event_in_b_key : carries_key Cases.event_in_b "b/x.pdf".
Proof.
  exists (s3_node "docs" "b/x.pdf" 8). split; [by apply payload_detail|done].
Defined.

Lemma sample_event_key : carries_key Sample.event "reports/Q1+2024.pdf".
Proof. exact (notification_carries_key _ _ _ _ sample_event_notification). Defined.

Lemma thumbnails_are_skipped_witness :
  (carries_key Cases.derived_event "thumbnails/Q1+2024.png") ∧
  (Urllib.unquote_plus "thumbnails/Q1+2024.png" = thumbnail_key_of Sample.no_environ "reports/Q1 2024.pdf") ∧
  (should_process_event Sample.no_environ Cases.derived_event = Ok false
  ∧ lambda_handler Sample.no_environ (Sample.env "id-1") Cases.derived_event Sample.world =
    {| result := Ok (PDict [("statusCode", PInt 200);
                            ("body", PStr "Skipped non-PDF or thumbnail")]);
       after := Sample.world;
       calls := [CPrint [PStr "Received event:"; Cases.derived_event];
                 CPrint [PStr "Skipping event - not a PDF upload or is a thumbnail"]] |}).
Proof.
  assert (H1 : carries_key Cases.derived_event "thumbnails/Q1+2024.png")
    by (exact derived_event_key).
  assert (H2 : Urllib.unquote_plus "thumbnails/Q1+2024.png" = thumbnail_key_of Sample.no_environ "reports/Q1 2024.pdf")
    by (vm_compute; reflexivity).
  exact (conj H1 (conj H2 (thumbnails_are_skipped Sample.no_environ Sample.no_environ (Sample.env "id-1") Cases.derived_event "thumbnails/Q1+2024.png" "reports/Q1 2024.pdf" Sample.world H1 H2))).
Defined.

Lemma empty_prefix_skips_everything_witness :
  (Cases.no_prefix !! "THUMBNAIL_PREFIX" = Some "") ∧
  (carries_key Sample.event "reports/Q1+2024.pdf") ∧
  (lambda_handler Cases.no_prefix (Sample.env "id-1") Sample.event Sample.world =
  {| result := Ok (PDict [("statusCode", PInt 200);
                          ("body", PStr "Skipped non-PDF or thumbnail")]);
     after := Sample.world;
     calls := [CPrint [PStr "Received event:"; Sample.event];
               CPrint [PStr "Skipping event - not a PDF upload or is a thumbnail"]] |}).
Proof.
  assert (H1 : Cases.no_prefix !! "THUMBNAIL_PREFIX" = Some "")
    by (vm_compute; reflexivity).
  assert (H2 : carries_key Sample.event "reports/Q1+2024.pdf")
    by (exact sample_event_key).
  exact (conj H1 (conj H2 (empty_prefix_skips_everything Cases.no_prefix (Sample.env "id-1") Sample.event "reports/Q1+2024.pdf" Sample.world H1 H2))).
Defined.

Lemma empty_records_raise_witness :
  (Py.dict_get "Records" Cases.empty_batch = Some (PList [])) ∧
  (lambda_handler Sample.no_environ (Sample.env "id-1") (PDict Cases.empty_batch) Sample.world =
  {| result := Raise (Exn "IndexError" "list index out of range");
     after := Sample.world;
     calls := [CPrint [PStr "Received event:"; PDict Cases.empty_batch]] |}).
Proof.
  assert (H1 : Py.dict_get "Records" Cases.empty_batch = Some (PList []))
    by (reflexivity).
  exact (conj H1 (empty_records_raise Sample.no_environ (Sample.env "id-1") Cases.empty_batch Sample.world H1)).
Defined.

Lemma unreadable_notification_is_a_500_witness :
  (should_process_event Sample.no_environ Cases.no_bucket_event = Ok true) ∧
  (carries_key Cases.no_bucket_event "a.pdf") ∧
  ((∀ bucket size, ¬ notification Cases.no_bucket_event bucket "a.pdf" size)) ∧
  (∃ e,
    parse_event Cases.no_bucket_event = Raise e ∧
    lambda_handler Sample.no_environ (Sample.env "id-1") Cases.no_bucket_event Sample.world =
    {| result := Ok (PDict [("statusCode", PInt 500);
                            ("body", PStr (exn_str e))]);
       after := Sample.world;
       calls := [CPrint [PStr "Received event:"; Cases.no_bucket_event];
                 CPrint [PStr ("Error: " +:+ exn_str e)]] |}).
Proof.
  assert (H1 : should_process_event Sample.no_environ Cases.no_bucket_event = Ok true)
    by (vm_compute; reflexivity).
  assert (H2 : carries_key Cases.no_bucket_event "a.pdf")
    by (exact no_bucket_event_key).
  assert (H3 : (∀ bucket size, ¬ notification Cases.no_bucket_event bucket "a.pdf" size))
    by (exact no_bucket_event_unreadable).
  exact (conj H1 (conj H2 (conj H3 (unreadable_notification_is_a_500 Sample.no_environ (Sample.env "id-1") Cases.no_bucket_event "a.pdf" Sample.world H1 H2 H3)))).
Defined.

Lemma shapes_are_handled_alike_witness :
  (notification Sample.event (PStr "docs") "reports/Q1+2024.pdf" (PInt 10240)) ∧
  (notification Sample.event_b (PStr "docs") "reports/Q1%202024.pdf" (PInt 10240)) ∧
  (Urllib.unquote_plus "reports/Q1+2024.pdf" = Urllib.unquote_plus "reports/Q1%202024.pdf") ∧
  (result (lambda_handler Sample.no_environ (Sample.env "id-1") Sample.event Sample.world) =
    result (lambda_handler Sample.no_environ (Sample.env "id-1") Sample.event_b Sample.world)
  ∧ after (lambda_handler Sample.no_environ (Sample.env "id-1") Sample.event Sample.world) =
    after (lambda_handler Sample.no_environ (Sample.env "id-1") Sample.event_b Sample.world)
  ∧ ∃ later,
      calls (lambda_handler Sample.no_environ (Sample.env "id-1") Sample.event Sample.world) =
        CPrint [PStr "Received event:"; Sample.event] :: later ∧
      calls (lambda_handler Sample.no_environ (Sample.env "id-1") Sample.event_b Sample.world) =
        CPrint [PStr "Received event:"; Sample.event_b] :: later).
Proof.
  assert (H1 : notification Sample.event (PStr "docs") "reports/Q1+2024.pdf" (PInt 10240))
    by (exact sample_event_notification).
  assert (H2 : notification Sample.event_b (PStr "docs") "reports/Q1%202024.pdf" (PInt 10240))
    by (exact sample_event_b_notification).
  assert (H3 : Urllib.unquote_plus "reports/Q1+2024.pdf" = Urllib.unquote_plus "reports/Q1%202024.pdf")
    by (vm_compute; reflexivity).
  exact (conj H1 (conj H2 (conj H3 (shapes_are_handled_alike Sample.no_environ (Sample.env "id-1") Sample.event Sample.event_b (PStr "docs") "reports/Q1+2024.pdf" "reports/Q1%202024.pdf" (PInt 10240) Sample.world H1 H2 H3)))).
Defined.


Lemma record_contents_witness :
  (CPutItem Cases.sample_item true
      ∈ calls
        (lambda_handler Sample.no_environ (Sample.env "id-1") Sample.event Sample.world)) ∧
  (∃ src raw size,
    notification Sample.event (PStr src) raw size ∧
    Cases.sample_item = {| file_id := uuid4 (Sample.env "id-1");
              original_file := "s3://" +:+ src +:+ "/" +:+ Urllib.unquote_plus raw;
              thumbnail_path := "s3://" +:+ target_bucket_of Sample.no_environ src +:+ "/" +:+
                                thumbnail_key_of Sample.no_environ (Urllib.unquote_plus raw);
              file_size := size;
              file_type := "pdf";
              created_at := datetime_now (Sample.env "id-1") 0;
              updated_at := datetime_now (Sample.env "id-1") 1 |}).
Proof.
  assert (H1 : CPutItem Cases.sample_item true
      ∈ calls
        (lambda_handler Sample.no_environ (Sample.env "id-1") Sample.event Sample.world))
    by (vm_compute; find_call).
  exact (conj H1 (record_contents Sample.no_environ (Sample.env "id-1") Sample.event Sample.world Cases.sample_item true H1)).
Defined.

Lemma success_means_all_done_witness :
  (result (lambda_handler Sample.no_environ (Sample.env "id-1") Sample.event Sample.world) =
    Ok (PDict [("statusCode", PInt 200);
               ("body", PDict [("message", PStr "Successfully processed PDF");
                               ("file_id", PStr "id-1");
                               ("thumbnail_path", PStr "thumbnails/Q1 2024.png")])])) ∧
  (∃ src raw size thumb item,
    notification Sample.event (PStr src) raw size ∧
    should_process_event Sample.no_environ Sample.event = Ok true ∧
    s3 (after (lambda_handler Sample.no_environ (Sample.env "id-1") Sample.event Sample.world))
      !! (target_bucket_of Sample.no_environ src, "thumbnails/Q1 2024.png") = Some thumb ∧
    ContentType thumb = "image/png" ∧
    table (after
          (lambda_handler Sample.no_environ (Sample.env "id-1") Sample.event Sample.world)) !! "id-1" = Some item ∧
    thumbnail_path item = "s3://" +:+ target_bucket_of Sample.no_environ src +:+ "/" +:+ "thumbnails/Q1 2024.png" ∧
    fs (after (lambda_handler Sample.no_environ (Sample.env "id-1") Sample.event Sample.world))
      !! ("/tmp/" +:+ OsPath.basename (Urllib.unquote_plus raw)) = None ∧
    Forall (λ c, match c with
                 | CPrint _ => True
                 | CDownload _ _ _ ok | CPutObject _ _ _ ok
                 | CPutItem _ ok | CRemove _ ok => ok = true
                 end)
           (calls
                 (lambda_handler Sample.no_environ (Sample.env "id-1") Sample.event Sample.world))).
Proof.
  assert (H1 : result
        (lambda_handler Sample.no_environ (Sample.env "id-1") Sample.event Sample.world) =
    Ok (PDict [("statusCode", PInt 200);
               ("body", PDict [("message", PStr "Successfully processed PDF");
                               ("file_id", PStr "id-1");
                               ("thumbnail_path", PStr "thumbnails/Q1 2024.png")])]))
    by (vm_compute; reflexivity).
  exact (conj H1 (success_means_all_done Sample.no_environ (Sample.env "id-1") Sample.event Sample.world "id-1" "thumbnails/Q1 2024.png" H1)).
Defined.

Lemma failed_record_leaves_the_thumbnail_witness :
  (ddb_put_fault Cases.env_throttled = Some Cases.throttled) ∧
  (CPutObject "docs" "thumbnails/Q1 2024.png" ({| Body := "PNG"; ContentType := "image/png" |}) true
      ∈ calls
        (lambda_handler Sample.no_environ Cases.env_throttled Sample.event Sample.world)) ∧
  (s3 (after
        (lambda_handler Sample.no_environ Cases.env_throttled Sample.event Sample.world)) !! ("docs", "thumbnails/Q1 2024.png") = Some ({| Body := "PNG"; ContentType := "image/png" |})
  ∧ table (after
        (lambda_handler Sample.no_environ Cases.env_throttled Sample.event Sample.world)) = table Sample.world
  ∧ CPrint [PStr ("Error storing metadata: " +:+ exn_str Cases.throttled)]
      ∈ calls (lambda_handler Sample.no_environ Cases.env_throttled Sample.event Sample.world)
  ∧ (result (lambda_handler Sample.no_environ Cases.env_throttled Sample.event Sample.world) =
       Ok (PDict [("statusCode", PInt 500); ("body", PStr (exn_str Cases.throttled))])
     ∨ result (lambda_handler Sample.no_environ Cases.env_throttled Sample.event Sample.world) =
       Raise (Py.UnboundLocalError "e"))).
Proof.
  assert (H1 : ddb_put_fault Cases.env_throttled = Some Cases.throttled)
    by (reflexivity).
  assert (H2 : CPutObject "docs" "thumbnails/Q1 2024.png" ({| Body := "PNG"; ContentType := "image/png" |}) true
      ∈ calls
        (lambda_handler Sample.no_environ Cases.env_throttled Sample.event Sample.world))
    by (vm_compute; find_call).
  exact (conj H1 (conj H2 (failed_record_leaves_the_thumbnail Sample.no_environ Cases.env_throttled Sample.event Sample.world Cases.throttled "docs" "thumbnails/Q1 2024.png" ({| Body := "PNG"; ContentType := "image/png" |}) H1 H2))).
Defined.

Lemma how_the_handler_raises_witness :
  (result
        (lambda_handler Sample.no_environ Sample.env_stuck Sample.event Sample.world) = Raise (Py.UnboundLocalError "e")) ∧
  ((should_process_event Sample.no_environ Sample.event = Raise (Py.UnboundLocalError "e") ∧
   after
         (lambda_handler Sample.no_environ Sample.env_stuck Sample.event Sample.world) = Sample.world ∧
   calls (lambda_handler Sample.no_environ Sample.env_stuck Sample.event Sample.world) =
     [CPrint [PStr "Received event:"; Sample.event]])
  ∨ ((Py.UnboundLocalError "e") = Py.UnboundLocalError "e" ∧
     ∃ path n e',
       os_remove_fault Sample.env_stuck n = Some e' ∧
       CRemove path false
           ∈ calls
             (lambda_handler Sample.no_environ Sample.env_stuck Sample.event Sample.world) ∧
       CPrint [PStr ("Cleanup error: " +:+ exn_str e')]
         ∈ calls (lambda_handler Sample.no_environ Sample.env_stuck Sample.event Sample.world) ∧
       is_Some (fs (after
             (lambda_handler Sample.no_environ Sample.env_stuck Sample.event Sample.world)) !! path))).
Proof.
  assert (H1 : result
        (lambda_handler Sample.no_environ Sample.env_stuck Sample.event Sample.world) = Raise (Py.UnboundLocalError "e"))
    by (vm_compute; reflexivity).
  exact (conj H1 (how_the_handler_raises Sample.no_environ Sample.env_stuck Sample.event Sample.world (Py.UnboundLocalError "e") H1)).
Defined.

Lemma workspace_deleted_once_witness :
  ((∀ n, os_remove_fault (Sample.env "id-1") n = None)) ∧
  (CDownload (PStr "docs") "reports/Q1 2024.pdf" "/tmp/Q1 2024.pdf" true
      ∈ calls
        (lambda_handler Sample.no_environ (Sample.env "id-1") Sample.event Sample.world)) ∧
  (List.filter is_remove (calls
        (lambda_handler Sample.no_environ (Sample.env "id-1") Sample.event Sample.world))
    = [CRemove "/tmp/Q1 2024.pdf" true]
  ∧ fs (after
        (lambda_handler Sample.no_environ (Sample.env "id-1") Sample.event Sample.world)) !! "/tmp/Q1 2024.pdf" = None).
Proof.
  assert (H1 : (∀ n, os_remove_fault (Sample.env "id-1") n = None))
    by (intros n; reflexivity).
  assert (H2 : CDownload (PStr "docs") "reports/Q1 2024.pdf" "/tmp/Q1 2024.pdf" true
      ∈ calls
        (lambda_handler Sample.no_environ (Sample.env "id-1") Sample.event Sample.world))
    by (vm_compute; find_call).
  exact (conj H1 (conj H2 (workspace_deleted_once Sample.no_environ (Sample.env "id-1") Sample.event Sample.world (PStr "docs") "reports/Q1 2024.pdf" "/tmp/Q1 2024.pdf" H1 H2))).
Defined.

Lemma workspace_file_is_flat_witness :
  (carries_key Sample.event "reports/Q1+2024.pdf") ∧
  (CDownload (PStr "docs") "reports/Q1 2024.pdf" "/tmp/Q1 2024.pdf" true
      ∈ calls
        (lambda_handler Sample.no_environ (Sample.env "id-1") Sample.event Sample.world)) ∧
  (∃ name,
    "/tmp/Q1 2024.pdf" = "/tmp/" +:+ name ∧
    Str.rfind name "/" = -1 ∧
    Str.endswith (Str.lower name) ".pdf" = true ∧
    ∃ folder, "reports/Q1 2024.pdf" = folder +:+ name).
Proof.
  assert (H1 : carries_key Sample.event "reports/Q1+2024.pdf")
    by (exact sample_event_key).
  assert (H2 : CDownload (PStr "docs") "reports/Q1 2024.pdf" "/tmp/Q1 2024.pdf" true
      ∈ calls
        (lambda_handler Sample.no_environ (Sample.env "id-1") Sample.event Sample.world))
    by (vm_compute; find_call).
  exact (conj H1 (conj H2 (workspace_file_is_flat Sample.no_environ (Sample.env "id-1") Sample.event "reports/Q1+2024.pdf" Sample.world (PStr "docs") "reports/Q1 2024.pdf" "/tmp/Q1 2024.pdf" true H1 H2))).
Defined.

Lemma derived_key_strips_the_extension_witness :
  (carries_key Sample.event "reports/Q1+2024.pdf") ∧
  (CPutObject "docs" "thumbnails/Q1 2024.png" ({| Body := "PNG"; ContentType := "image/png" |}) true
      ∈ calls
        (lambda_handler Sample.no_environ (Sample.env "id-1") Sample.event Sample.world)) ∧
  (∃ stem ext,
    OsPath.basename (Urllib.unquote_plus "reports/Q1+2024.pdf") = stem +:+ ext ∧
    Str.lower ext = ".pdf" ∧
    Str.rfind stem "/" = -1 ∧
    "thumbnails/Q1 2024.png" = THUMBNAIL_PREFIX Sample.no_environ +:+
          (if OsPath.has_non_dot (Str.len stem) stem then stem else stem +:+ ext)
          +:+ ".png").
Proof.
  assert (H1 : carries_key Sample.event "reports/Q1+2024.pdf")
    by (exact sample_event_key).
  assert (H2 : CPutObject "docs" "thumbnails/Q1 2024.png" ({| Body := "PNG"; ContentType := "image/png" |}) true
      ∈ calls
        (lambda_handler Sample.no_environ (Sample.env "id-1") Sample.event Sample.world))
    by (vm_compute; find_call).
  exact (conj H1 (conj H2 (derived_key_strips_the_extension Sample.no_environ (Sample.env "id-1") Sample.event "reports/Q1+2024.pdf" Sample.world "docs" "thumbnails/Q1 2024.png" ({| Body := "PNG"; ContentType := "image/png" |}) true H1 H2))).
Defined.

Lemma same_name_same_thumbnail_witness :
  (carries_key Cases.event_in_a "a/x.pdf") ∧
  (carries_key Cases.event_in_b "b/x.pdf") ∧
  (Urllib.unquote_plus "a/x.pdf" = "a" +:+ "/" +:+ "x.pdf") ∧
  (Urllib.unquote_plus "b/x.pdf" = "b" +:+ "/" +:+ "x.pdf") ∧
  (Str.rfind "x.pdf" "/" = -1) ∧
  (CPutObject "docs" "thumbnails/x.png" ({| Body := "PNG"; ContentType := "image/png" |}) true
      ∈ calls
        (lambda_handler Sample.no_environ (Sample.env "id-1") Cases.event_in_a Cases.two_folders)) ∧
  (CPutObject "docs" "thumbnails/x.png" ({| Body := "PNG"; ContentType := "image/png" |}) true
      ∈ calls
        (lambda_handler Sample.no_environ (Sample.env "id-2") Cases.event_in_b Cases.two_folders)) ∧
  ("thumbnails/x.png" = "thumbnails/x.png").
Proof.
  assert (H1 : carries_key Cases.event_in_a "a/x.pdf")
    by (exact event_in_a_key).
  assert (H2 : carries_key Cases.event_in_b "b/x.pdf")
    by (exact event_in_b_key).
  assert (H3 : Urllib.unquote_plus "a/x.pdf" = "a" +:+ "/" +:+ "x.pdf")
    by (vm_compute; reflexivity).
  assert (H4 : Urllib.unquote_plus "b/x.pdf" = "b" +:+ "/" +:+ "x.pdf")
    by (vm_compute; reflexivity).
  assert (H5 : Str.rfind "x.pdf" "/" = -1)
    by (vm_compute; reflexivity).
  assert (H6 : CPutObject "docs" "thumbnails/x.png" ({| Body := "PNG"; ContentType := "image/png" |}) true
      ∈ calls
        (lambda_handler Sample.no_environ (Sample.env "id-1") Cases.event_in_a Cases.two_folders))
    by (vm_compute; find_call).
  assert (H7 : CPutObject "docs" "thumbnails/x.png" ({| Body := "PNG"; ContentType := "image/png" |}) true
      ∈ calls
        (lambda_handler Sample.no_environ (Sample.env "id-2") Cases.event_in_b Cases.two_folders))
    by (vm_compute; find_call).
  exact (conj H1 (conj H2 (conj H3 (conj H4 (conj H5 (conj H6 (conj H7 (same_name_same_thumbnail Sample.no_environ (Sample.env "id-1") (Sample.env "id-2") Cases.event_in_a Cases.event_in_b Cases.two_folders Cases.two_folders "a/x.pdf" "b/x.pdf" "a" "b" "x.pdf" "docs" "thumbnails/x.png" "docs" "thumbnails/x.png" ({| Body := "PNG"; ContentType := "image/png" |}) ({| Body := "PNG"; ContentType := "image/png" |}) true true H1 H2 H3 H4 H5 H6 H7)))))))).
Defined.

Lemma failed_download_changes_nothing_witness :
  (should_process_event Sample.no_environ Sample.event = Ok true) ∧
  (notification Sample.event (PStr "docs") "reports/Q1+2024.pdf" (PInt 10240)) ∧
  (s3_get_fault Cases.env_unreachable = Some Cases.unreachable) ∧
  (s3 (after
        (lambda_handler Sample.no_environ Cases.env_unreachable Sample.event Sample.world)) = s3 Sample.world
  ∧ table (after
        (lambda_handler Sample.no_environ Cases.env_unreachable Sample.event Sample.world)) = table Sample.world
  ∧ CDownload (PStr "docs") (Urllib.unquote_plus "reports/Q1+2024.pdf")
              ("/tmp/" +:+ OsPath.basename (Urllib.unquote_plus "reports/Q1+2024.pdf")) false
      ∈ calls (lambda_handler Sample.no_environ Cases.env_unreachable Sample.event Sample.world)
  ∧ (∀ b k o ok, CPutObject b k o ok ∉ calls
        (lambda_handler Sample.no_environ Cases.env_unreachable Sample.event Sample.world))
  ∧ (∀ item ok, CPutItem item ok ∉ calls
        (lambda_handler Sample.no_environ Cases.env_unreachable Sample.event Sample.world))
  ∧ (os_remove_fault Cases.env_unreachable 0%nat = None →
     result (lambda_handler Sample.no_environ Cases.env_unreachable Sample.event Sample.world) =
       Ok (PDict [("statusCode", PInt 500); ("body", PStr (exn_str Cases.unreachable))])
     ∧ fs (after (lambda_handler Sample.no_environ Cases.env_unreachable Sample.event Sample.world))
         !! ("/tmp/" +:+ OsPath.basename (Urllib.unquote_plus "reports/Q1+2024.pdf")) = None)).
Proof.
  assert (H1 : should_process_event Sample.no_environ Sample.event = Ok true)
    by (vm_compute; reflexivity).
  assert (H2 : notification Sample.event (PStr "docs") "reports/Q1+2024.pdf" (PInt 10240))
    by (exact sample_event_notification).
  assert (H3 : s3_get_fault Cases.env_unreachable = Some Cases.unreachable)
    by (reflexivity).
  exact (conj H1 (conj H2 (conj H3 (failed_download_changes_nothing Sample.no_environ Cases.env_unreachable Sample.event Sample.world "docs" "reports/Q1+2024.pdf" (PInt 10240) Cases.unreachable H1 H2 H3)))).
Defined.

Lemma thumbnail_size_needs_the_separator_witness :
  (Str.rfind (THUMBNAIL_SIZE Cases.capital_x) "x" = -1) ∧
  (∃ msg, thumbnail_size Cases.capital_x = Raise (Exn "ValueError" msg)).
Proof.
  assert (H1 : Str.rfind (THUMBNAIL_SIZE Cases.capital_x) "x" = -1)
    by (vm_compute; reflexivity).
  exact (conj H1 (thumbnail_size_needs_the_separator Cases.capital_x H1)).
Defined.

Example run_without_bucket :
  lambda_handler Sample.no_environ (Sample.env "id-1") Cases.no_bucket_event
                 Sample.world
  = {| result := Ok (PDict [("statusCode", PInt 500); ("body", PStr "'bucket'")]);
       after := Sample.world;
       calls := [CPrint [PStr "Received event:"; Cases.no_bucket_event];
                 CPrint [PStr "Error: 'bucket'"]] |}.
Proof. reflexivity. Qed.
